(** * ERA API v1 server: lifecycle and request-dispatch shell

  A shallow embedding of [cmd/server/main.go]: template bootstrap,
  the request pipeline built in [main] ([requestLogger] around the
  [ServeMux], [corsMiddleware] around [handleProcess]), the terminal
  handlers, the port lookup and the shutdown sequence.

  The Go standard library is the environment of the program.  Each
  library call the program makes is modelled by a definition that
  states, in its comment, which part of the documented behaviour it
  covers. *)

From stdpp Require Import gmap strings list sorting.
From Stdlib Require Import ZArith Lia Ascii.

Local Open Scope Z_scope.

(** ** Text *)

Module Text.

Definition dq : string := String "034"%char "".
Definition nl : string := String "010"%char "".
Definition tab : string := String "009"%char "".

(** [quoted s] is [s] between two double quotes. *)
Definition quoted (s : string) : string := dq +:+ s +:+ dq.

(** [tabs n] is [n] horizontal tabs. *)
Fixpoint tabs (n : nat) : string :=
  match n with
  | O => ""
  | S k => tab +:+ tabs k
  end.

Fixpoint join (sep : string) (l : list string) : string :=
  match l with
  | [] => ""
  | [x] => x
  | x :: rest => x +:+ sep +:+ join sep rest
  end.

(** [fmt.Sprintf] for formats whose only verb is [%s] and whose
    operands are strings.  An operand is copied as it is; a verb
    without operand prints [%!s(MISSING)], operands left over are
    reported after the text. *)
Definition extra (args : list string) : string :=
  match args with
  | [] => ""
  | _ => "%!(EXTRA " +:+ join ", " ((λ a, "string=" +:+ a) <$> args) +:+ ")"
  end.

Fixpoint Sprintf (format : string) (args : list string) : string :=
  match format with
  | "" => extra args
  | String "%"%char (String "s"%char rest) =>
      match args with
      | a :: args' => a +:+ Sprintf rest args'
      | [] => "%!s(MISSING)" +:+ Sprintf rest []
      end
  | String c rest => String c (Sprintf rest args)
  end.

(** A text without percent sign holds no verb. *)
Fixpoint plain (s : string) : bool :=
  match s with
  | "" => true
  | String c rest => negb (Ascii.eqb c "%"%char) && plain rest
  end.

(** [strings.HasSuffix]. *)
Definition HasSuffix (s suffix : string) : bool :=
  String.prefix (String.rev suffix) (String.rev s).

End Text.

(** ** Process environment and configuration *)

Module Config.

Definition defaultPort : string := "8080".

(** [os.Getenv]: the value of the variable, empty when it is unset. *)
Definition Getenv (env : gmap string string) (key : string) : string :=
  default "" (env !! key).

(** [getEnvOrDefault], main.go 221-226. *)
Definition getEnvOrDefault (env : gmap string string)
    (key defaultValue : string) : string :=
  let value := Getenv env key in
  if decide (value ≠ "") then value else defaultValue.

(** The loaded templates: base name and text of each parsed file, in
    the order [ParseGlob] read them. *)
Definition Template : Type := list (string * string).

(** [ServerConfig], main.go 35-39; the logger is the one process-wide
    sink and is kept in the program state. *)
Record ServerConfig := {
  port : string;
  templates : Template;
}.

(** The configuration built in [main], main.go 117-121. *)
Definition initConfig (env : gmap string string) (tmpl : Template)
    : ServerConfig :=
  {| port := getEnvOrDefault env "PORT" defaultPort; templates := tmpl |}.

End Config.

(** ** Errors and log records *)

Module Go.

(** The [syscall.Errno] values the model distinguishes. *)
Inductive Errno := ENOENT | ENOTDIR | EISDIR | EEXIST.

(** A path is the list of its slash-separated elements:
    [internal/templates] is [["internal"; "templates"]], and
    [filepath.Join dir name] is [dir ++ [name]].  The empty path is the
    working directory. *)
Definition path : Type := list string.

(** The [error] values that reach the program. *)
Inductive error :=
| PathError (op : string) (p : path) (e : Errno)  (* *fs.PathError *)
| ErrNoMatch (pattern : path)    (* html/template: pattern matches no files *)
| ErrTemplate (name : string)    (* the template text does not parse *)
| DeadlineExceeded               (* context.DeadlineExceeded *)
| ErrOther (msg : string).

(** [os.IsNotExist]: true of a [PathError] (or link or syscall error)
    that carries [ENOENT], false of every error built by [fmt.Errorf]
    or [errors.New]. *)
Definition IsNotExist (err : error) : bool :=
  match err with
  | PathError _ _ ENOENT => true
  | _ => false
  end.

Inductive result (A : Type) :=
| Ok (a : A)
| Err (err : error).
Arguments Ok {A} a.
Arguments Err {A} err.

Inductive Signal := Interrupt | SIGTERM.

(** [slog] records: level, message and the key-value pairs. *)
Inductive Level := LevelInfo | LevelError.

Inductive Value :=
| VString (s : string)
| VPath (p : path)
| VError (err : error)
| VInt (n : Z)
| VDuration (d : Z)
| VSignal (sig : Signal).

Record Record_ := {
  level : Level;
  message : string;
  attrs : list (string * Value);
}.

Definition Info (msg : string) (kv : list (string * Value)) : Record_ :=
  {| level := LevelInfo; message := msg; attrs := kv |}.
Definition Error (msg : string) (kv : list (string * Value)) : Record_ :=
  {| level := LevelError; message := msg; attrs := kv |}.

End Go.

(** ** The file system *)

Module FS.
Import Go.

(** What a path names.  Every node is readable and writable by the
    process (permissions are not modelled).  [Dangling] is a symbolic
    link whose target is missing; [creatable] tells whether the
    directory of the target exists, so that opening the link for
    writing creates the target.  A link to a directory or to a file
    stands as that directory or file. *)
Inductive node :=
| Dir
| File (data : string)
| Dangling (creatable : bool).

(** The directory tree, flattened: each existing path with its node.
    The working directory [[]] always exists. *)
Definition at_ (fs : gmap path node) (p : path) : option node :=
  match p with
  | [] => Some Dir
  | _ => fs !! p
  end.

(** Path resolution as the kernel does it: from [seen], one element of
    [rest] at a time, each one looked up in a directory.  With
    [follow], a symbolic link in last position is followed. *)
Fixpoint walk (follow : bool) (fs : gmap path node) (seen rest : path)
    : Errno + node :=
  match rest with
  | [] =>
      match at_ fs seen with
      | None => inl ENOENT
      | Some (Dangling c) => if follow then inl ENOENT else inr (Dangling c)
      | Some n => inr n
      end
  | c :: rest' =>
      match at_ fs seen with
      | Some Dir => walk follow fs (seen ++ [c]) rest'
      | Some (File _) => inl ENOTDIR
      | Some (Dangling _) | None => inl ENOENT
      end
  end.

(** [os.Stat] and [os.Lstat]. *)
Definition Stat (fs : gmap path node) (p : path) : result node :=
  match walk true fs [] p with
  | inr n => Ok n
  | inl e => Err (PathError "stat" p e)
  end.

Definition Lstat (fs : gmap path node) (p : path) : result node :=
  match walk false fs [] p with
  | inr n => Ok n
  | inl e => Err (PathError "lstat" p e)
  end.

(** [child_of dir p] is [Some name] when [p] is [dir ++ [name]]. *)
Fixpoint child_of (dir p : path) : option string :=
  match dir, p with
  | [], [name] => Some name
  | d :: dir', c :: p' => if decide (d = c) then child_of dir' p' else None
  | _, _ => None
  end.

(** [Readdirnames(-1)] on the opened directory, followed by
    [slices.Sort]: the names in directory [dir], in byte order. *)
Definition Readdirnames (fs : gmap path node) (dir : path) : list string :=
  merge_sort String.le (omap (child_of dir) (map_to_list fs).*1).

(** [filepath.Match] for the patterns of this program: literal text,
    or one leading [*] followed by literal text.  A file name holds no
    separator, so the star matches any beginning of it. *)
Definition Match (pattern name : string) : bool :=
  match pattern with
  | String "*"%char lit => Text.HasSuffix name lit
  | _ => bool_decide (pattern = name)
  end.

Definition split_last (p : path) : option (path * string) :=
  match reverse p with
  | [] => None
  | x :: rp => Some (reverse rp, x)
  end.

(** [filepath.Glob] for a pattern whose only wildcard element is the
    last one: the directory part is looked up with [os.Stat]; when
    that fails, or it is no directory, there is no match and no error
    (Glob ignores file system errors).  Otherwise the sorted names of
    the directory that match, each joined to the directory. *)
Definition Glob (fs : gmap path node) (pattern : path) : list path :=
  match split_last pattern with
  | None => []
  | Some (dir, file) =>
      match Stat fs dir with
      | Ok Dir =>
          (λ name, dir ++ [name]) <$>
            filter (λ name, Match file name) (Readdirnames fs dir)
      | _ => []
      end
  end.

(** [os.ReadFile]. *)
Definition ReadFile (fs : gmap path node) (p : path) : result string :=
  match walk true fs [] p with
  | inr (File data) => Ok data
  | inr _ => Err (PathError "read" p EISDIR)
  | inl e => Err (PathError "open" p e)
  end.

(** [os.Mkdir]: the parent must be a directory and the name free. *)
Definition Mkdir (fs : gmap path node) (p : path)
    : gmap path node * option error :=
  match split_last p with
  | None => (fs, Some (PathError "mkdir" p EEXIST))
  | Some (parent, _) =>
      match walk true fs [] parent with
      | inl e => (fs, Some (PathError "mkdir" p e))
      | inr Dir =>
          match fs !! p with
          | Some _ => (fs, Some (PathError "mkdir" p EEXIST))
          | None => (<[p := Dir]> fs, None)
          end
      | inr _ => (fs, Some (PathError "mkdir" p ENOTDIR))
      end
  end.

(** [os.MkdirAll], on the reversed path [rp] so that the parent is its
    tail: nothing to do when the path is a directory; an error when it
    is something else; otherwise the parent first, then [Mkdir], whose
    failure is forgiven when the directory is there after all. *)
Fixpoint MkdirAll_rev (fs : gmap path node) (rp : path)
    : gmap path node * option error :=
  let p := reverse rp in
  match Stat fs p with
  | Ok Dir => (fs, None)
  | Ok _ => (fs, Some (PathError "mkdir" p ENOTDIR))
  | Err _ =>
      match rp with
      | [] => (fs, None)
      | _ :: parent =>
          let '(fs1, err) :=
            match parent with
            | [] => (fs, None)
            | _ => MkdirAll_rev fs parent
            end in
          match err with
          | Some e => (fs1, Some e)
          | None =>
              match Mkdir fs1 p with
              | (fs2, None) => (fs2, None)
              | (fs2, Some e) =>
                  match Lstat fs1 p with
                  | Ok Dir => (fs2, None)
                  | _ => (fs2, Some e)
                  end
              end
          end
      end
  end.

Definition MkdirAll (fs : gmap path node) (p : path)
    : gmap path node * option error :=
  MkdirAll_rev fs (reverse p).

(** [os.WriteFile]: open for writing, create, truncate; then write.
    The tree shows the write under the path that was opened.  Where
    that path is a link, the file behind the link has no path of its
    own in the tree: what the write does there is outside the model,
    and the properties below speak of the path written and of the
    directories, not of the other files. *)
Definition WriteFile (fs : gmap path node) (p : path) (data : string)
    : gmap path node * option error :=
  match split_last p with
  | None => (fs, Some (PathError "open" p EISDIR))
  | Some (parent, _) =>
      match walk true fs [] parent with
      | inl e => (fs, Some (PathError "open" p e))
      | inr Dir =>
          match fs !! p with
          | Some Dir => (fs, Some (PathError "open" p EISDIR))
          | Some (Dangling false) => (fs, Some (PathError "open" p ENOENT))
          | Some (Dangling true) | Some (File _) | None =>
              (<[p := File data]> fs, None)
          end
      | inr _ => (fs, Some (PathError "open" p ENOTDIR))
      end
  end.

End FS.

(** ** Loading the templates *)

Module Templates.
Import Go.
Export Config.

Section Parse.

(** Whether [text/template] accepts a text.  The template grammar is
    the library's; the program only sees success or failure. *)
Variable parses : string → bool.

Definition Base (p : path) : string :=
  match FS.split_last p with
  | Some (_, name) => name
  | None => "."
  end.

(** [parseFiles]: each file is read, then parsed under its base name;
    the first failure ends the load with that error. *)
Fixpoint parseFiles (fs : gmap path FS.node) (filenames : list path)
    (t : Template) : result Template :=
  match filenames with
  | [] => Ok t
  | filename :: rest =>
      match FS.ReadFile fs filename with
      | Err e => Err e
      | Ok data =>
          if parses data
          then parseFiles fs rest (t ++ [(Base filename, data)])
          else Err (ErrTemplate (Base filename))
      end
  end.

(** [template.ParseGlob]: the files are those [filepath.Glob] lists;
    an empty list is the error [pattern matches no files]. *)
Definition ParseGlob (fs : gmap path FS.node) (pattern : path)
    : result Template :=
  match FS.Glob fs pattern with
  | [] => Err (ErrNoMatch pattern)
  | filenames => parseFiles fs filenames []
  end.

End Parse.
End Templates.

(** ** Startup: the template bootstrap of [main] *)

Module Bootstrap.
Import Go.
Export Templates.

Definition templateDir : path := ["internal"; "templates"].

Definition defaultContent : string :=
  Text.join Text.nl [
    "";
    "<!DOCTYPE html>";
    "<html>";
    "<head>";
    "    <title>ERA API - Election Results</title>";
    "    <style>";
    "        body { font-family: Arial, sans-serif; margin: 0; padding: 20px; }";
    "        .container { max-width: 1200px; margin: 0 auto; }";
    "        .results { border: 1px solid #ddd; padding: 15px; margin: 10px 0; }";
    "    </style>";
    "</head>";
    "<body>";
    "    <div class=" +:+ Text.quoted "container" +:+ ">";
    "        <h1>{{.Title}}</h1>";
    "        <div class=" +:+ Text.quoted "results" +:+ ">";
    "            {{.Content}}";
    "        </div>";
    "    </div>";
    "</body>";
    "</html>" ].

(** How the load ends: [main] goes on with the templates, or the
    process has called [os.Exit]. *)
Inductive outcome :=
| Proceed (tmpl : Template)
| Exit (code : Z).

Record booted := {
  disk : gmap path FS.node;   (* the file system afterwards *)
  logged : list Record_;      (* what the logger received, in order *)
  result_ : outcome;
}.

Section Load.
Variable parses : string → bool.

(** main.go 61-114. *)
Definition loadTemplates (fs : gmap path FS.node) : booted :=
  let pattern := templateDir ++ ["*.html"] in
  match ParseGlob parses fs pattern with
  | Ok tmpl => {| disk := fs; logged := []; result_ := Proceed tmpl |}
  | Err err =>
      if IsNotExist err then
        match FS.MkdirAll fs templateDir with
        | (fs1, Some err) =>
            {| disk := fs1;
               logged := [Error "failed to create templates directory"
                            [("path", VPath templateDir); ("error", VError err)]];
               result_ := Exit 1 |}
        | (fs1, None) =>
            let defaultTemplate := templateDir ++ ["default.html"] in
            match FS.WriteFile fs1 defaultTemplate defaultContent with
            | (fs2, Some err) =>
                {| disk := fs2;
                   logged := [Error "failed to create default template"
                                [("path", VPath defaultTemplate);
                                 ("error", VError err)]];
                   result_ := Exit 1 |}
            | (fs2, None) =>
                match ParseGlob parses fs2 pattern with
                | Err err =>
                    {| disk := fs2;
                       logged := [Error "failed to load templates after creation"
                                    [("error", VError err)]];
                       result_ := Exit 1 |}
                | Ok tmpl =>
                    {| disk := fs2;
                       logged := [Info "created default template"
                                    [("path", VPath defaultTemplate)]];
                       result_ := Proceed tmpl |}
                end
            end
        end
      else
        {| disk := fs;
           logged := [Error "failed to load templates" [("error", VError err)]];
           result_ := Exit 1 |}
  end.

End Load.
End Bootstrap.

(** ** Requests, the response writer and the handlers *)

Module HTTP.
Import Go.
Export Config.

Record Request := {
  Method : string;
  Path : string;        (* [r.URL.Path], in canonical form *)
  RemoteAddr : string;
  Body : string;
}.

(** The values the program stores in a response map. *)
Inductive JSON :=
| JNull
| JString (s : string).

(** What a handler hands to [Write]: bytes, or the text that
    [json.Encoder.Encode] produces for a map (the object with its keys
    in order, then a newline). *)
Inductive chunk :=
| Bytes (s : string)
| Encoded (v : gmap string JSON).

(** The calls a handler makes that leave the handler, in order. *)
Inductive effect :=
| ENow (t : Z)                 (* a reading of the clock *)
| ESet (key value : string)    (* [w.Header().Set] *)
| EWriteHeader (code : Z)
| EWrite (c : chunk)
| ELog (r : Record_).

(** A request in progress: the [ResponseWriter] ([header] is the live
    header map, [wroteHeader] the status line and the headers frozen
    by the first [WriteHeader] or [Write], [written] the body), and
    what of the process a handler can reach: the clock (its [ticks]-th
    reading is [clock ticks]), the logger's output, the configuration
    with the loaded templates, and the file system. *)
Record State := {
  header : gmap string string;
  wroteHeader : option (Z * gmap string string);
  written : list chunk;
  trace : list effect;
  clock : nat → Z;
  ticks : nat;
  logs : list Record_;
  config : ServerConfig;
  disk : gmap path FS.node;
}.

Definition Handler : Type := Request → State → State.

Definition emit (e : effect) (st : State) : State :=
  {| header := header st; wroteHeader := wroteHeader st;
     written := written st; trace := trace st ++ [e];
     clock := clock st; ticks := ticks st; logs := logs st;
     config := config st; disk := disk st |}.

(** [w.Header().Set(key, value)]. *)
Definition Set_ (key value : string) (st : State) : State :=
  emit (ESet key value)
    {| header := <[key := value]> (header st); wroteHeader := wroteHeader st;
       written := written st; trace := trace st;
       clock := clock st; ticks := ticks st; logs := logs st;
       config := config st; disk := disk st |}.

Definition freeze (code : Z) (st : State) : State :=
  match wroteHeader st with
  | Some _ => st
  | None =>
      {| header := header st; wroteHeader := Some (code, header st);
         written := written st; trace := trace st;
         clock := clock st; ticks := ticks st; logs := logs st;
         config := config st; disk := disk st |}
  end.

(** [w.WriteHeader(code)]: the first call fixes the status and the
    headers; a later one changes nothing. *)
Definition WriteHeader (code : Z) (st : State) : State :=
  emit (EWriteHeader code) (freeze code st).

Definition StatusOK : Z := 200.
Definition StatusBadRequest : Z := 400.
Definition StatusNotFound : Z := 404.
Definition StatusMethodNotAllowed : Z := 405.

(** [w.Write]: writes the header with status 200 when none was
    written, then appends to the body. *)
Definition Write (c : chunk) (st : State) : State :=
  let st1 := freeze StatusOK st in
  emit (EWrite c)
    {| header := header st1; wroteHeader := wroteHeader st1;
       written := written st1 ++ [c]; trace := trace st1;
       clock := clock st1; ticks := ticks st1; logs := logs st1;
       config := config st1; disk := disk st1 |}.

(** [time.Now]. *)
Definition Now (st : State) : Z * State :=
  let t := clock st (ticks st) in
  (t, emit (ENow t)
        {| header := header st; wroteHeader := wroteHeader st;
           written := written st; trace := trace st;
           clock := clock st; ticks := S (ticks st); logs := logs st;
           config := config st; disk := disk st |}).

(** [logger.Info] and [logger.Error]. *)
Definition Log (r : Record_) (st : State) : State :=
  emit (ELog r)
    {| header := header st; wroteHeader := wroteHeader st;
       written := written st; trace := trace st;
       clock := clock st; ticks := ticks st; logs := logs st ++ [r];
       config := config st; disk := disk st |}.

(** [http.Error]: a plain-text reply, the message and a newline.  (Later
    releases of the library first delete a [Content-Length] header; no
    handler of this program sets one.) *)
Definition Error_ (msg : string) (code : Z) (st : State) : State :=
  Write (Bytes (msg +:+ Text.nl))
    (WriteHeader code
      (Set_ "X-Content-Type-Options" "nosniff"
        (Set_ "Content-Type" "text/plain; charset=utf-8" st))).

(** *** The terminal handlers *)

(** [healthCheck], main.go 215-219. *)
Definition healthPayload : string :=
  "{" +:+ Text.quoted "status" +:+ ":" +:+ Text.quoted "healthy" +:+ "}".

Definition healthCheck : Handler := λ r st,
  Write (Bytes healthPayload)
    (WriteHeader StatusOK
      (Set_ "Content-Type" "application/json" st)).

(** The request structure of [handleProcess], main.go 236-241. *)
Record ProcessRequest := {
  CountyName : string;
  FileLink : string;
  ContentType : string;   (* "candidate" or "measure" *)
  ParseMethod : string;   (* "zip", "html", "pdf", "xml" *)
}.

Definition processFormat : string :=
  Text.join Text.nl [
    "";
    Text.tabs 3 +:+ "<div class=" +:+ Text.quoted "election-results" +:+ ">";
    Text.tabs 4 +:+ "<h2>%s Results</h2>";
    Text.tabs 4 +:+ "<div class=" +:+ Text.quoted "results-container" +:+ ">";
    Text.tabs 5 +:+ "<p>Processing %s data from %s using %s parser</p>";
    Text.tabs 4 +:+ "</div>";
    Text.tabs 3 +:+ "</div>";
    Text.tabs 2 ].

(** The fixed text of [processFormat], cut at its four verbs. *)
Definition beforeCounty : string :=
  Text.nl +:+ Text.tabs 3 +:+ "<div class=" +:+ Text.quoted "election-results"
  +:+ ">" +:+ Text.nl +:+ Text.tabs 4 +:+ "<h2>".
Definition beforeContentType : string :=
  " Results</h2>" +:+ Text.nl +:+ Text.tabs 4 +:+ "<div class="
  +:+ Text.quoted "results-container" +:+ ">" +:+ Text.nl +:+ Text.tabs 5
  +:+ "<p>Processing ".
Definition beforeFileLink : string := " data from ".
Definition beforeParseMethod : string := " using ".
Definition afterParseMethod : string :=
  " parser</p>" +:+ Text.nl +:+ Text.tabs 4 +:+ "</div>" +:+ Text.nl
  +:+ Text.tabs 3 +:+ "</div>" +:+ Text.nl +:+ Text.tabs 2.

(** The response map, main.go 249-259. *)
Definition processResponse (req : ProcessRequest) : gmap string JSON :=
  <["error" := JNull]>
    (<["html" := JString (Text.Sprintf processFormat
         [CountyName req; ContentType req; FileLink req; ParseMethod req])]> ∅).

Section Handlers.

(** [json.NewDecoder(r.Body).Decode(&req)] on the request structure:
    the decoded structure, or [None] when [Decode] returns an error.
    The JSON reader is the library's. *)
Variable Decode : string → option ProcessRequest.

(** [handleProcess], main.go 229-263. *)
Definition handleProcess : Handler := λ r st,
  if decide (Method r ≠ "POST") then
    Error_ "Method not allowed" StatusMethodNotAllowed st
  else
    match Decode (Body r) with
    | None => Error_ "Invalid request body" StatusBadRequest st
    | Some req =>
        Write (Encoded (processResponse req))
          (Set_ "Content-Type" "application/json" st)
    end.

(** *** The stages *)

(** [corsMiddleware], main.go 197-213. *)
Definition corsMiddleware (next : Handler) : Handler := λ r st,
  let st1 := Set_ "Access-Control-Allow-Origin" "http://localhost:5174" st in
  let st2 := Set_ "Access-Control-Allow-Methods" "POST, GET, OPTIONS" st1 in
  let st3 :=
    Set_ "Access-Control-Allow-Headers" "Content-Type, Authorization" st2 in
  let st4 := Set_ "Access-Control-Allow-Credentials" "true" st3 in
  let st5 := Set_ "Access-Control-Max-Age" "3600" st4 in
  if decide (Method r = "OPTIONS") then WriteHeader StatusOK st5
  else next r st5.

(** The header writes of [corsMiddleware], in order, and the header
    map they leave in an empty writer. *)
Definition corsEffects : list effect :=
  [ESet "Access-Control-Allow-Origin" "http://localhost:5174";
   ESet "Access-Control-Allow-Methods" "POST, GET, OPTIONS";
   ESet "Access-Control-Allow-Headers" "Content-Type, Authorization";
   ESet "Access-Control-Allow-Credentials" "true";
   ESet "Access-Control-Max-Age" "3600"].

Definition corsHeaders : gmap string string :=
  <["Access-Control-Max-Age" := "3600"]>
    (<["Access-Control-Allow-Credentials" := "true"]>
      (<["Access-Control-Allow-Headers" := "Content-Type, Authorization"]>
        (<["Access-Control-Allow-Methods" := "POST, GET, OPTIONS"]>
          (<["Access-Control-Allow-Origin" := "http://localhost:5174"]> ∅)))).

(** [requestLogger], main.go 143-156. *)
Definition requestLogger (handler : Handler) : Handler := λ r st,
  let '(start, st1) := Now st in
  let st2 := handler r st1 in
  let '(stop, st3) := Now st2 in
  Log (Info "request completed"
         [("method", VString (Method r));
          ("path", VString (Path r));
          ("duration", VDuration (stop - start));
          ("remote_addr", VString (RemoteAddr r))]) st3.

(** *** The request multiplexer *)

Record route := {
  pattern : string;
  handler : Handler;
}.

(** A pattern is [METHOD, space, path] or a path alone. *)
Fixpoint cut (s : string) : option (string * string) :=
  match s with
  | "" => None
  | String " "%char rest => Some ("", rest)
  | String c rest =>
      match cut rest with
      | Some (before, after) => Some (String c before, after)
      | None => None
      end
  end.

Definition patternMethod (pat : string) : string :=
  match cut pat with
  | Some (m, _) => m
  | None => ""
  end.

Definition patternPath (pat : string) : string :=
  match cut pat with
  | Some (_, p) => p
  | None => pat
  end.

(** A pattern without method matches every method; [GET] matches
    [HEAD] as well. *)
Definition matchMethod (pm m : string) : bool :=
  bool_decide (pm = "") || bool_decide (pm = m)
  || (bool_decide (pm = "GET") && bool_decide (m = "HEAD")).

(** The paths of this program's patterns are literal and do not end
    in a slash: such a pattern matches that path and no other. *)
Definition matchPath (pp p : string) : bool := bool_decide (pp = p).

Definition matches (r : Request) (rt : route) : bool :=
  matchMethod (patternMethod (pattern rt)) (Method r)
  && matchPath (patternPath (pattern rt)) (Path r).

(** [mux.HandleFunc]. *)
Definition HandleFunc (pat : string) (h : Handler) (mux : list route)
    : list route :=
  mux ++ [{| pattern := pat; handler := h |}].

(** The methods under which some pattern matches the path, [HEAD]
    added to [GET], sorted. *)
Definition matchingMethods (mux : list route) (p : string) : list string :=
  let ms :=
    (λ rt, patternMethod (pattern rt)) <$>
      filter (λ rt, matchPath (patternPath (pattern rt)) p) mux in
  let ms := if bool_decide ("GET" ∈ ms) then "HEAD" :: ms else ms in
  merge_sort String.le (remove_dups ms).

(** [ServeMux.ServeHTTP]: the handler of the pattern that matches
    method and path; when the path matches under other methods only,
    status 405 with an [Allow] header; otherwise status 404.  (Two
    patterns of one multiplexer never match the same request with
    equal precedence: registration refuses such a pair.  A path that
    is not in canonical form is redirected before any match, and the
    request for the whole server, whose path is an asterisk, is refused
    with status 400; the model covers the requests whose path is
    canonical and holds no percent escape.) *)
Definition ServeMux (mux : list route) : Handler := λ r st,
  match filter (λ rt, matches r rt) mux with
  | rt :: _ => handler rt r st
  | [] =>
      match matchingMethods mux (Path r) with
      | [] => Error_ "404 page not found" StatusNotFound st
      | allowed =>
          Error_ "Method Not Allowed" StatusMethodNotAllowed
            (Set_ "Allow" (Text.join ", " allowed) st)
      end
  end.

(** The routes registered in [main], main.go 124-128. *)
Definition routes : list route :=
  HandleFunc "GET /health" healthCheck
    (HandleFunc "POST /api/v1/process" (corsMiddleware handleProcess) []).

(** The handler of the server, main.go 133. *)
Definition serverHandler : Handler := requestLogger (ServeMux routes).

End Handlers.

(** A step that leaves the configuration (with the loaded templates)
    and the file system as they are. *)
Definition keeps (f : State → State) : Prop :=
  ∀ st, config (f st) = config st ∧ disk (f st) = disk st.

(** *** Serving one request *)

Record Response := {
  StatusCode : Z;
  Headers : gmap string string;
  Content : list chunk;
}.

(** The state in which the server calls the handler: nothing set,
    nothing written. *)
Definition begin (st : State) : State :=
  {| header := ∅; wroteHeader := None; written := []; trace := [];
     clock := clock st; ticks := ticks st; logs := logs st;
     config := config st; disk := disk st |}.

(** What the server sends once the handler has returned: status 200
    when the handler wrote none, and no body in reply to [HEAD]. *)
Definition reply (r : Request) (st : State) : Response :=
  match wroteHeader st with
  | Some (code, h) =>
      {| StatusCode := code; Headers := h;
         Content := if decide (Method r = "HEAD") then [] else written st |}
  | None => {| StatusCode := StatusOK; Headers := header st; Content := [] |}
  end.

Definition serve (h : Handler) (r : Request) (st : State) : Response * State :=
  let st' := h r (begin st) in (reply r st', st').

End HTTP.

(** ** The life of the process: [main], [startServer], [gracefulShutdown] *)

Module Lifecycle.
Import Go.
Export Bootstrap.

(** [time.Duration] counts nanoseconds. *)
Definition Second : Z := 1000000000.

Definition defaultReadTimeout : Z := 30 * Second.
Definition defaultWriteTimeout : Z := 30 * Second.
Definition shutdownTimeout : Z := 10 * Second.

Definition startupBanner : string :=
  Text.join Text.nl [
    "";
    "╔═══════════════════════════════════════════╗";
    "║           ERA API v1 Server               ║";
    "║     Election Results Aggregator API       ║";
    "╚═══════════════════════════════════════════╝";
    "" ].

(** [http.Server] as [main] fills it in. *)
Record Server := {
  Addr : string;
  Handler : HTTP.Handler;
  ReadTimeout : Z;
  WriteTimeout : Z;
}.

(** What the process does to the outside, in order. *)
Inductive event :=
| Stdout (s : string)             (* [fmt.Print] *)
| Logged (r : Record_)            (* a record handed to the logger *)
| ListenAndServe (server : Server)
| Shutdown (timeout : Z)          (* [server.Shutdown] under a deadline *)
| Close.                          (* [server.Close] *)

(** What ends the wait of [startServer]: an error of the accept loop,
    or a signal. *)
Inductive wakeup :=
| ServerError (err : error)
| Signalled (sig : Signal).

(** The surroundings of one run of the process.  [shutdownResult d]
    is what [server.Shutdown] returns under a context that expires
    after [d]: [None] when the listeners closed and all connections
    became idle in time, the context's error when the deadline passed
    first.  [closeResult] is what [server.Close] returns. *)
Record World := {
  files : gmap path FS.node;
  environ : gmap string string;
  Version : string;
  GOOS : string;
  GOARCH : string;
  NumCPU : Z;
  wake : wakeup;
  shutdownResult : Z → option error;
  closeResult : option error;
}.

(** [gracefulShutdown], main.go 182-194. *)
Definition gracefulShutdown (w : World) : list event :=
  Shutdown shutdownTimeout ::
  match shutdownResult w shutdownTimeout with
  | Some err =>
      Logged (Error "server shutdown failed" [("error", VError err)]) ::
      Close ::
      match closeResult w with
      | Some err => [Logged (Error "server close failed" [("error", VError err)])]
      | None => []
      end
  | None => []
  end ++ [Logged (Info "server stopped" [])].

(** [startServer], main.go 158-180.  The accept loop runs beside the
    wait; of the two, the model keeps the order in which the program
    starts them.  The events are those of the goroutine of [main]: the
    records that the handlers of requests hand to the same logger,
    while the server runs or after a shutdown that ran out of time, are
    not among them. *)
Definition startServer (w : World) (server : Server) (config : ServerConfig)
    : list event :=
  [Logged (Info "starting server" [("port", VString (port config))]);
   ListenAndServe server] ++
  [match wake w with
   | ServerError err => Logged (Error "server error" [("error", VError err)])
   | Signalled sig =>
       Logged (Info "shutdown signal received" [("signal", VSignal sig)])
   end] ++
  gracefulShutdown w.

(** One run of the process. *)
Record run := {
  events : list event;
  exitCode : Z;
  filesAfter : gmap path FS.node;
}.

Section Main.
Variable parses : string → bool.
Variable Decode : string → option HTTP.ProcessRequest.

(** [main], main.go 41-140. *)
Definition main (w : World) : run :=
  let start :=
    [Stdout startupBanner;
     Logged (Info "server initialization"
               [("go_version", VString (Version w));
                ("os", VString (GOOS w));
                ("arch", VString (GOARCH w));
                ("cpu_cores", VInt (NumCPU w))])] in
  let boot := loadTemplates parses (files w) in
  match result_ boot with
  | Exit code =>
      {| events := start ++ (Logged <$> logged boot);
         exitCode := code;
         filesAfter := disk boot |}
  | Proceed tmpl =>
      let config := initConfig (environ w) tmpl in
      let server :=
        {| Addr := ":" +:+ port config;
           Handler := HTTP.serverHandler Decode;
           ReadTimeout := defaultReadTimeout;
           WriteTimeout := defaultWriteTimeout |} in
      {| events :=
           start ++ (Logged <$> logged boot) ++ startServer w server config;
         exitCode := 0;
         filesAfter := disk boot |}
  end.

End Main.

(** [fmt.Println] of one text. *)
Definition Println (s : string) : event := Stdout (s +:+ Text.nl).

(** [printStartupInstructions], main.go 265-277. *)
Definition printStartupInstructions : list event :=
  [
    Println (Text.nl +:+ "To run with XCode tools bypass, use one of these commands:");
    Println (Text.nl +:+ "1. For development:");
    Println ("   CGO_ENABLED=1 go run cmd/server/main.go");
    Println (Text.nl +:+ "2. For building:");
    Println ("   CGO_ENABLED=1 go build -o era_api cmd/server/main.go");
    Println (Text.nl +:+ "3. For production:");
    Println ("   CGO_ENABLED=1 GOOS=darwin go build -o era_api cmd/server/main.go");
    Println (Text.nl +:+ "Environment variables:");
    Println ("- PORT: Server port (default: 8080)");
    Println ("- LOG_LEVEL: Logging level (default: info)");
    Println "" ].

(** The run reaches the serving state when it calls [ListenAndServe]. *)
Definition isListen (e : event) : bool :=
  match e with
  | ListenAndServe _ => true
  | _ => false
  end.

Definition servingReached (r : run) : bool := existsb isListen (events r).

End Lifecycle.

(** ** The start script *)

(** The script that sets the project up and runs the server
    ([src/unnamed/part_000]).  [mkdir -p], the test [-f] and the
    redirection [cat > file] are those of [FS]: [mkdir -p] creates the
    missing ancestors in turn and accepts a directory that exists, as
    [os.MkdirAll] does; the redirection opens the file as
    [os.WriteFile] does.  A command that fails reports it on the
    error stream and the script goes on (there is no [set -e]). *)
Module Script.
Import Go.
Export Lifecycle.

Definition esc : string := String "027"%char "".
Definition RED : string := esc +:+ "[0;31m".
Definition GREEN : string := esc +:+ "[0;32m".
Definition YELLOW : string := esc +:+ "[1;33m".
Definition NC : string := esc +:+ "[0m".

(** [echo -e text]. *)
Definition echo (text : string) : string := text +:+ Text.nl.

(** The here-document of the script, lines 17-35: every line with its
    newline. *)
Definition scriptTemplate : string :=
  Text.join Text.nl [
    "<!DOCTYPE html>";
    "<html>";
    "<head>";
    "    <title>ERA API - Election Results</title>";
    "    <style>";
    "        body { font-family: Arial, sans-serif; margin: 0; padding: 20px; }";
    "        .container { max-width: 1200px; margin: 0 auto; }";
    "        .results { border: 1px solid #ddd; padding: 15px; margin: 10px 0; }";
    "    </style>";
    "</head>";
    "<body>";
    "    <div class=" +:+ Text.quoted "container" +:+ ">";
    "        <h1>{{.Title}}</h1>";
    "        <div class=" +:+ Text.quoted "results" +:+ ">";
    "            {{.Content}}";
    "        </div>";
    "    </div>";
    "</body>";
    "</html>";
    "" ].

(** The operands of [mkdir -p] after brace expansion, line 12. *)
Definition projectDirs : list path :=
  [["internal"; "templates"]; ["internal"; "handlers"];
   ["internal"; "parser"]; ["internal"; "formatter"];
   ["internal"; "models"]].

Definition mkdir_p (fs : gmap path FS.node) (dirs : list path)
    : gmap path FS.node :=
  foldl (λ fs dir, (FS.MkdirAll fs dir).1) fs dirs.

(** The test [-f]: the path resolves to a regular file. *)
Definition isRegular (fs : gmap path FS.node) (p : path) : bool :=
  match FS.Stat fs p with
  | Ok (FS.File _) => true
  | _ => false
  end.

(** The shell: the file system, the variables it exports, and what it
    has written to the terminal. *)
Record shell := {
  tree : gmap path FS.node;
  vars : gmap string string;
  printed : list string;
}.

(** [create_project_structure], lines 10-39. *)
Definition create_project_structure (sh : shell) : shell :=
  let fs1 := mkdir_p (tree sh) projectDirs in
  let defaultTemplate := templateDir ++ ["default.html"] in
  if isRegular fs1 defaultTemplate then
    {| tree := fs1; vars := vars sh; printed := printed sh |}
  else
    {| tree := (FS.WriteFile fs1 defaultTemplate scriptTemplate).1;
       vars := vars sh;
       printed :=
         printed sh ++ [echo (GREEN +:+ "Created default template" +:+ NC)] |}.

(** The three [export] lines, 47-49; [${PORT:-8080}] is the value of
    [PORT], or 8080 when it is unset or empty. *)
Definition exports (env : gmap string string) : gmap string string :=
  <["GODEBUG" := "netdns=go"]>
    (<["PORT" := if decide (Getenv env "PORT" = "") then "8080"
                 else Getenv env "PORT"]>
       (<["CGO_ENABLED" := "0"]> env)).

Section Run.
Variable parses : string → bool.
Variable Decode : string → option HTTP.ProcessRequest.

(** The script, lines 41-52: what it prints itself, and the run of the
    server it starts with [go run] (the build is taken to succeed). *)
Definition script (w : World) : list string * run :=
  let sh0 :=
    {| tree := files w; vars := environ w;
       printed :=
         [echo (GREEN +:+ "Setting up project structure..." +:+ NC)] |} in
  let sh1 := create_project_structure sh0 in
  (printed sh1 ++
     [echo (GREEN +:+ "Starting ERA API server without CGO..." +:+ NC)],
   main parses Decode
     {| files := tree sh1; environ := exports (vars sh1);
        Version := Version w; GOOS := GOOS w; GOARCH := GOARCH w;
        NumCPU := NumCPU w; wake := wake w;
        shutdownResult := shutdownResult w;
        closeResult := closeResult w |}).

End Run.
End Script.

(** ** Sample inputs *)

Module Samples.
Import Go.

(** A decoder that knows one body: the JSON text of [kern]. *)
Definition kern : HTTP.ProcessRequest :=
  {| HTTP.CountyName := "Kern";
     HTTP.FileLink := "https://example.org/kern.zip";
     HTTP.ContentType := "candidate";
     HTTP.ParseMethod := "zip" |}.

Definition kernBody : string :=
  "{" +:+ Text.quoted "countyName" +:+ ":" +:+ Text.quoted "Kern" +:+ ","
  +:+ Text.quoted "fileLink" +:+ ":"
  +:+ Text.quoted "https://example.org/kern.zip" +:+ ","
  +:+ Text.quoted "contentType" +:+ ":" +:+ Text.quoted "candidate" +:+ ","
  +:+ Text.quoted "parseMethod" +:+ ":" +:+ Text.quoted "zip" +:+ "}".

(** A body outside both enumerations, with an empty county name. *)
Definition odd : HTTP.ProcessRequest :=
  {| HTTP.CountyName := "";
     HTTP.FileLink := "<script>%s</script>";
     HTTP.ContentType := "recall";
     HTTP.ParseMethod := "csv" |}.

Definition oddBody : string :=
  "{" +:+ Text.quoted "fileLink" +:+ ":"
  +:+ Text.quoted "<script>%s</script>" +:+ ","
  +:+ Text.quoted "contentType" +:+ ":" +:+ Text.quoted "recall" +:+ ","
  +:+ Text.quoted "parseMethod" +:+ ":" +:+ Text.quoted "csv" +:+ "}".

Definition Decode (body : string) : option HTTP.ProcessRequest :=
  if decide (body = kernBody) then Some kern
  else if decide (body = oddBody) then Some odd
  else None.

Definition request (method path body : string) : HTTP.Request :=
  {| HTTP.Method := method; HTTP.Path := path;
     HTTP.RemoteAddr := "127.0.0.1:40000"; HTTP.Body := body |}.

(** A server at rest: the clock advances by one millisecond a
    reading. *)
Definition idle : HTTP.State :=
  {| HTTP.header := ∅; HTTP.wroteHeader := None; HTTP.written := [];
     HTTP.trace := []; HTTP.clock := λ n, 1000000 * Z.of_nat n;
     HTTP.ticks := 0; HTTP.logs := [];
     HTTP.config := Config.initConfig ∅ [];
     HTTP.disk := ∅ |}.

(** File systems: nothing; the directory alone; the directory with a
    file that is no template. *)
Definition bare : gmap path FS.node := ∅.

Definition emptyDir : gmap path FS.node :=
  <[ ["internal"; "templates"] := FS.Dir ]> (<[ ["internal"] := FS.Dir ]> ∅).

Definition notesOnly : gmap path FS.node :=
  <[ ["internal"; "templates"; "notes.txt"] := FS.File "todo" ]> emptyDir.

(** The directory as the start script of the repository leaves it. *)
Definition ready : gmap path FS.node :=
  <[ ["internal"; "templates"; "default.html"]
       := FS.File Bootstrap.defaultContent ]> emptyDir.

(** The directory holding [default.html] as a link whose target was
    removed. *)
Definition linked : gmap path FS.node :=
  <[ ["internal"; "templates"; "default.html"] := FS.Dangling true ]>
    emptyDir.

(** The directory with a [default.html] of its own and, beside it, a
    link whose target was removed. *)
Definition stale : gmap path FS.node :=
  <[ ["internal"; "templates"; "old.html"] := FS.Dangling true ]>
    (<[ ["internal"; "templates"; "default.html"] := FS.File "<p>ours</p>" ]>
       emptyDir).

(** A world in which an interrupt arrives and the connections need
    fifteen seconds to drain. *)
Definition world (fs : gmap path FS.node) (env : gmap string string)
    : Lifecycle.World :=
  {| Lifecycle.files := fs; Lifecycle.environ := env;
     Lifecycle.Version := "go1.22.0"; Lifecycle.GOOS := "linux";
     Lifecycle.GOARCH := "amd64"; Lifecycle.NumCPU := 4;
     Lifecycle.wake := Lifecycle.Signalled Interrupt;
     Lifecycle.shutdownResult := λ d,
       if decide (15 * Lifecycle.Second ≤ d) then None
       else Some DeadlineExceeded;
     Lifecycle.closeResult := None |}.

End Samples.

(** * Properties *)

(** ** Configuration *)

Section ConfigFacts.
Import Config.

Lemma Getenv_set (env : gmap string string) key v :
  env !! key = Some v → Getenv env key = v.
Proof. unfold Getenv. by intros ->. Qed.

Lemma Getenv_unset (env : gmap string string) key :
  env !! key = None → Getenv env key = "".
Proof. unfold Getenv. by intros ->. Qed.

Lemma getEnvOrDefault_value (env : gmap string string) key d :
  Getenv env key ≠ "" → getEnvOrDefault env key d = Getenv env key.
Proof. intros H. unfold getEnvOrDefault. by rewrite decide_True. Qed.

Lemma getEnvOrDefault_default (env : gmap string string) key d :
  Getenv env key = "" → getEnvOrDefault env key d = d.
Proof. intros H. unfold getEnvOrDefault. rewrite decide_False; [done | tauto]. Qed.

(** C8. The listen port of the configuration is the value of the
    environment variable [PORT] when it is set to a text that is not
    empty, and the fixed default ["8080"] when it is unset or empty. *)
Theorem C8_listen_port (env : gmap string string) (tmpl : Template) :
  (∀ v, env !! "PORT" = Some v → v ≠ "" → port (initConfig env tmpl) = v) ∧
  (env !! "PORT" = None ∨ env !! "PORT" = Some "" →
   port (initConfig env tmpl) = defaultPort) ∧
  defaultPort = "8080".
Proof.
  split; [|split; [|done]].
  - intros v Hv Hne. simpl. rewrite getEnvOrDefault_value.
    + by apply Getenv_set.
    + by rewrite (Getenv_set _ _ _ Hv).
  - intros [H|H]; simpl; apply getEnvOrDefault_default.
    + by apply Getenv_unset.
    + by apply Getenv_set.
Qed.

(** C8 on three environments: [PORT] set, unset, and set to the
    empty text. *)
Lemma C8_listen_port_witness :
  port (initConfig {[ "PORT" := "9090" ]} []) = "9090" ∧
  port (initConfig ∅ []) = "8080" ∧
  port (initConfig {[ "PORT" := "" ]} []) = "8080".
Proof.
  split; [|split].
  - apply (proj1 (C8_listen_port {[ "PORT" := "9090" ]} []) "9090");
      [reflexivity | discriminate].
  - apply (proj1 (proj2 (C8_listen_port ∅ []))). left. reflexivity.
  - apply (proj1 (proj2 (C8_listen_port {[ "PORT" := "" ]} []))).
    right. reflexivity.
Defined.

End ConfigFacts.

(** ** Text and the response format *)

Section TextFacts.
Import Text.

Lemma app_nil_r (s : string) : s +:+ "" = s.
Proof.
  induction s as [|c s IH]; [done|].
  change (String c (s +:+ "") = String c s). by rewrite IH.
Qed.

Lemma Sprintf_cons c rest args :
  Ascii.eqb c "%"%char = false →
  Sprintf (String c rest) args = String c (Sprintf rest args).
Proof.
  destruct c as [[] [] [] [] [] [] [] []]; intros H;
    first [discriminate H | reflexivity].
Qed.

(** Text without verb is copied. *)
Lemma Sprintf_plain lit rest args :
  plain lit = true → Sprintf (lit +:+ rest) args = lit +:+ Sprintf rest args.
Proof.
  induction lit as [|c lit IH]; intros H; [done|].
  change (plain (String c lit)) with (negb (Ascii.eqb c "%"%char) && plain lit) in H.
  apply andb_prop in H as [Hc Hl]. apply negb_true_iff in Hc.
  change (String c lit +:+ rest) with (String c (lit +:+ rest)).
  rewrite Sprintf_cons by exact Hc. rewrite IH by exact Hl. reflexivity.
Qed.

(** The verb is replaced by its operand, and the operand is not read
    again. *)
Lemma Sprintf_verb a args rest :
  Sprintf ("%s" +:+ rest) (a :: args) = a +:+ Sprintf rest args.
Proof. reflexivity. Qed.

End TextFacts.

Section FormatFacts.
Import HTTP.

Lemma processFormat_cut :
  processFormat =
    beforeCounty +:+ "%s" +:+ beforeContentType +:+ "%s" +:+ beforeFileLink
    +:+ "%s" +:+ beforeParseMethod +:+ "%s" +:+ afterParseMethod +:+ "".
Proof. vm_compute. reflexivity. Qed.

Lemma processFormat_filled a b c d :
  Text.Sprintf processFormat [a; b; c; d] =
    beforeCounty +:+ a +:+ beforeContentType +:+ b +:+ beforeFileLink
    +:+ c +:+ beforeParseMethod +:+ d +:+ afterParseMethod.
Proof.
  rewrite processFormat_cut.
  rewrite Sprintf_plain by reflexivity. rewrite Sprintf_verb.
  rewrite Sprintf_plain by reflexivity. rewrite Sprintf_verb.
  rewrite Sprintf_plain by reflexivity. rewrite Sprintf_verb.
  rewrite Sprintf_plain by reflexivity. rewrite Sprintf_verb.
  rewrite Sprintf_plain by reflexivity.
  change (Text.Sprintf "" []) with "". by rewrite app_nil_r.
Qed.
End FormatFacts.

(** ** The request pipeline *)

Section HTTPFacts.
Import Go HTTP.
Variable Decode : string → option ProcessRequest.

Ltac settle_method :=
  repeat match goal with
  | H : ?a ≠ ?b |- context [bool_decide (?a = ?b)] =>
      rewrite (bool_decide_eq_false_2 (a = b)) by exact H
  | H : ?a ≠ ?b |- context [bool_decide (?b = ?a)] =>
      rewrite (bool_decide_eq_false_2 (b = a))
        by (intros E; exact (H (eq_sym E)))
  end;
  rewrite ?andb_false_r, ?orb_false_r.

(** What the multiplexer does with the two routes of [main]. *)
Lemma ServeMux_routes r st :
  ServeMux (routes Decode) r st =
    if decide (Path r = "/api/v1/process") then
      if decide (Method r = "POST")
      then corsMiddleware (handleProcess Decode) r st
      else Error_ "Method Not Allowed" StatusMethodNotAllowed
             (Set_ "Allow" "POST" st)
    else if decide (Path r = "/health") then
      if decide (Method r = "GET" ∨ Method r = "HEAD")
      then healthCheck r st
      else Error_ "Method Not Allowed" StatusMethodNotAllowed
             (Set_ "Allow" "GET, HEAD" st)
    else Error_ "404 page not found" StatusNotFound st.
Proof.
  destruct r as [m p ra b]; cbn [Method Path].
  unfold ServeMux, routes, HandleFunc, matches, matchingMethods,
    matchMethod, matchPath.
  cbn [app filter list_filter pattern handler patternMethod patternPath cut
       fmap list_fmap Method Path].
  destruct (decide (p = "/api/v1/process")) as [->|Hp1].
  - destruct (decide (m = "POST")) as [->|Hm]; [reflexivity|].
    settle_method. reflexivity.
  - destruct (decide (p = "/health")) as [->|Hp2].
    + destruct (decide (m = "GET" ∨ m = "HEAD")) as [[-> | ->]|Hm];
        [reflexivity..|].
      assert (m ≠ "GET") by tauto. assert (m ≠ "HEAD") by tauto.
      settle_method. reflexivity.
    + settle_method. reflexivity.
Qed.

(** The server handler, with the logger's two clock readings made
    explicit. *)
Lemma serverHandler_unfold r st :
  serverHandler Decode r st =
    let st1 := (Now st).2 in
    let st2 := ServeMux (routes Decode) r st1 in
    Log (Info "request completed"
           [("method", VString (Method r));
            ("path", VString (Path r));
            ("duration", VDuration ((Now st2).1 - (Now st).1));
            ("remote_addr", VString (RemoteAddr r))]) (Now st2).2.
Proof. reflexivity. Qed.

(** A POST to the processing path reaches [handleProcess] behind the
    five headers of [corsMiddleware]. *)
Lemma process_route r st :
  Method r = "POST" → Path r = "/api/v1/process" →
  ServeMux (routes Decode) r st =
    handleProcess Decode r
      (Set_ "Access-Control-Max-Age" "3600"
        (Set_ "Access-Control-Allow-Credentials" "true"
          (Set_ "Access-Control-Allow-Headers" "Content-Type, Authorization"
            (Set_ "Access-Control-Allow-Methods" "POST, GET, OPTIONS"
              (Set_ "Access-Control-Allow-Origin" "http://localhost:5174"
                 st))))).
Proof.
  intros Hm Hp. rewrite ServeMux_routes.
  rewrite (decide_True (P := Path r = _)) by exact Hp.
  rewrite (decide_True (P := Method r = _)) by exact Hm.
  unfold corsMiddleware. rewrite Hm.
  rewrite (decide_False (P := "POST" = "OPTIONS")) by discriminate.
  reflexivity.
Qed.

Lemma handleProcess_post r st :
  Method r = "POST" →
  handleProcess Decode r st =
    match Decode (Body r) with
    | None => Error_ "Invalid request body" StatusBadRequest st
    | Some req =>
        Write (Encoded (processResponse req))
          (Set_ "Content-Type" "application/json" st)
    end.
Proof.
  intros Hm. unfold handleProcess. rewrite Hm.
  rewrite (decide_False (P := "POST" ≠ "POST")); [done | by intros H].
Qed.

Lemma not_head r m : Method r = m → m ≠ "HEAD" → Method r ≠ "HEAD".
Proof. by intros ->. Qed.

(** The whole exchange for a POST to the processing path whose body
    decodes. *)
Lemma process_ok r req st :
  Method r = "POST" → Path r = "/api/v1/process" →
  Decode (Body r) = Some req →
  (serve (serverHandler Decode) r st).1 =
    {| StatusCode := StatusOK;
       Headers := <["Content-Type" := "application/json"]> corsHeaders;
       Content := [Encoded (processResponse req)] |}.
Proof.
  intros Hm Hp Hd. unfold serve. rewrite serverHandler_unfold.
  cbv zeta. rewrite process_route by done.
  rewrite handleProcess_post by done. rewrite Hd.
  unfold reply.
  rewrite (decide_False (P := Method r = "HEAD"))
    by (eapply not_head; [exact Hm | discriminate]).
  reflexivity.
Qed.

(** The same when the body does not decode. *)
Lemma process_malformed r st :
  Method r = "POST" → Path r = "/api/v1/process" →
  Decode (Body r) = None →
  serve (serverHandler Decode) r st =
    ({| StatusCode := StatusBadRequest;
        Headers :=
          <["X-Content-Type-Options" := "nosniff"]>
            (<["Content-Type" := "text/plain; charset=utf-8"]> corsHeaders);
        Content := [Bytes ("Invalid request body" +:+ Text.nl)] |},
     serverHandler Decode r (begin st)).
Proof.
  intros Hm Hp Hd. unfold serve. f_equal.
  rewrite serverHandler_unfold.
  cbv zeta. rewrite process_route by done.
  rewrite handleProcess_post by done. rewrite Hd.
  unfold reply.
  rewrite (decide_False (P := Method r = "HEAD"))
    by (eapply not_head; [exact Hm | discriminate]).
  reflexivity.
Qed.

(** Any other method on the processing path is answered by the
    multiplexer. *)
Lemma process_other_method r st :
  Method r ≠ "POST" → Path r = "/api/v1/process" →
  (serve (serverHandler Decode) r st).1 =
    {| StatusCode := StatusMethodNotAllowed;
       Headers :=
         <["X-Content-Type-Options" := "nosniff"]>
           (<["Content-Type" := "text/plain; charset=utf-8"]>
             (<["Allow" := "POST"]> ∅));
       Content :=
         if decide (Method r = "HEAD") then []
         else [Bytes ("Method Not Allowed" +:+ Text.nl)] |}.
Proof.
  intros Hm Hp. unfold serve. rewrite serverHandler_unfold.
  cbv zeta. rewrite ServeMux_routes.
  rewrite (decide_True (P := Path r = _)) by exact Hp.
  rewrite (decide_False (P := Method r = _)) by exact Hm.
  reflexivity.
Qed.

(** No step of a handler touches the configuration or the file
    system; neither does a handler built from such steps. *)
Lemma keeps_compose f g : keeps f → keeps g → keeps (λ st, g (f st)).
Proof.
  intros Hf Hg st. destruct (Hf st) as [? ?], (Hg (f st)) as [? ?].
  split; congruence.
Qed.

Lemma keeps_emit e : keeps (emit e).
Proof. by intros st. Qed.

Lemma keeps_Set_ k v : keeps (Set_ k v).
Proof. by intros st. Qed.

Lemma keeps_freeze code : keeps (freeze code).
Proof. intros st. unfold freeze. by destruct (wroteHeader st). Qed.

Lemma keeps_WriteHeader code : keeps (WriteHeader code).
Proof. exact (keeps_compose _ _ (keeps_freeze code) (keeps_emit _)). Qed.

Lemma keeps_Write c : keeps (Write c).
Proof.
  intros st. destruct (keeps_freeze StatusOK st) as [Hc Hd].
  split; [exact Hc | exact Hd].
Qed.

Lemma keeps_Log rec : keeps (Log rec).
Proof. by intros st. Qed.

Lemma keeps_Now : keeps (λ st, (Now st).2).
Proof. by intros st. Qed.

Lemma keeps_Error_ msg code : keeps (Error_ msg code).
Proof.
  unfold Error_.
  apply (keeps_compose (λ st, WriteHeader code (Set_ _ _ (Set_ _ _ st)))
           (Write _)); [|apply keeps_Write].
  apply (keeps_compose (λ st, Set_ _ _ (Set_ _ _ st)) (WriteHeader code));
    [|apply keeps_WriteHeader].
  apply (keeps_compose (Set_ _ _) (Set_ _ _)); apply keeps_Set_.
Qed.

Lemma keeps_healthCheck r : keeps (healthCheck r).
Proof.
  unfold healthCheck.
  apply (keeps_compose (λ st, WriteHeader _ (Set_ _ _ st)) (Write _));
    [|apply keeps_Write].
  apply (keeps_compose (Set_ _ _) (WriteHeader _));
    [apply keeps_Set_ | apply keeps_WriteHeader].
Qed.

Lemma keeps_handleProcess r : keeps (handleProcess Decode r).
Proof.
  unfold handleProcess. case_decide; [apply keeps_Error_|].
  destruct (Decode (Body r)); [|apply keeps_Error_].
  apply (keeps_compose (Set_ _ _) (Write _));
    [apply keeps_Set_ | apply keeps_Write].
Qed.

Lemma keeps_corsMiddleware next r :
  (∀ r, keeps (next r)) → keeps (corsMiddleware next r).
Proof.
  intros Hnext. unfold corsMiddleware.
  assert (keeps (λ st,
    Set_ "Access-Control-Max-Age" "3600"
      (Set_ "Access-Control-Allow-Credentials" "true"
        (Set_ "Access-Control-Allow-Headers" "Content-Type, Authorization"
          (Set_ "Access-Control-Allow-Methods" "POST, GET, OPTIONS"
            (Set_ "Access-Control-Allow-Origin" "http://localhost:5174"
               st)))))) as Hset by (by intros st).
  case_decide.
  - exact (keeps_compose _ _ Hset (keeps_WriteHeader _)).
  - exact (keeps_compose _ _ Hset (Hnext r)).
Qed.

Lemma keeps_ServeMux mux r :
  Forall (λ rt, ∀ r, keeps (handler rt r)) mux → keeps (ServeMux mux r).
Proof.
  intros Hmux st. unfold ServeMux.
  destruct (filter (λ rt, matches r rt) mux) as [|rt rest] eqn:Hf.
  - destruct (matchingMethods mux (Path r)).
    + apply keeps_Error_.
    + exact (keeps_compose _ _ (keeps_Set_ _ _) (keeps_Error_ _ _) st).
  - assert (rt ∈ mux) as Hin.
    { assert (rt ∈ filter (λ rt, matches r rt) mux) as Hin
        by (rewrite Hf; left).
      by apply list_elem_of_filter in Hin as [_ ?]. }
    rewrite Forall_forall in Hmux. exact (Hmux rt Hin r st).
Qed.

Lemma keeps_requestLogger h r :
  (∀ r, keeps (h r)) → keeps (requestLogger h r).
Proof.
  intros Hh st. unfold requestLogger.
  destruct (Now st) as [start st1] eqn:H1.
  destruct (Now (h r st1)) as [stop st3] eqn:H3.
  assert (st1 = (Now st).2) as -> by (by rewrite H1).
  assert (st3 = (Now (h r (Now st).2)).2) as -> by (by rewrite H3).
  destruct (Hh r (Now st).2) as [Hc Hd]. split.
  - transitivity (config (h r (Now st).2)); [reflexivity | exact Hc].
  - transitivity (disk (h r (Now st).2)); [reflexivity | exact Hd].
Qed.

Lemma keeps_serverHandler r : keeps (serverHandler Decode r).
Proof.
  apply keeps_requestLogger. intros r'. apply keeps_ServeMux.
  apply Forall_cons_2; [|apply Forall_cons_2; [|apply Forall_nil_2]];
    intros r''; cbn [handler].
  - apply keeps_corsMiddleware, keeps_handleProcess.
  - apply keeps_healthCheck.
Qed.

Lemma serve_keeps r st :
  config (serve (serverHandler Decode) r st).2 = config st ∧
  disk (serve (serverHandler Decode) r st).2 = disk st.
Proof. exact (keeps_serverHandler r (begin st)). Qed.

(** *** Order of the stages *)

(** The effects of the server handler: the logger's clock reading,
    those of the multiplexer and of what it dispatches to, then the
    logger's second reading and its record. *)
Lemma logger_trace r st :
  trace (serverHandler Decode r (begin st)) =
    ENow (clock st (ticks st)) ::
    trace (ServeMux (routes Decode) r (begin st)) ++
    [ENow (clock st (S (ticks st)));
     ELog (Info "request completed"
         [("method", VString (Method r));
          ("path", VString (Path r));
          ("duration",
           VDuration (clock st (S (ticks st)) - clock st (ticks st)));
          ("remote_addr", VString (RemoteAddr r))])].
Proof.
  rewrite serverHandler_unfold. cbv zeta. rewrite !ServeMux_routes.
  unfold corsMiddleware, handleProcess.
  repeat case_decide; try destruct (Decode (Body r)); reflexivity.
Qed.

Lemma process_trace r st :
  Method r = "POST" → Path r = "/api/v1/process" →
  trace (ServeMux (routes Decode) r (begin st)) =
    corsEffects ++ trace (handleProcess Decode r (begin st)).
Proof.
  intros Hm Hp. rewrite process_route by done.
  rewrite !handleProcess_post by done.
  destruct (Decode (Body r)); reflexivity.
Qed.

Ltac not_among :=
  intros Hin;
  repeat (apply elem_of_cons in Hin as [Hin|Hin]; [discriminate Hin|]);
  by apply elem_of_nil in Hin.

Lemma other_trace r st v :
  Path r ≠ "/api/v1/process" →
  ESet "Access-Control-Allow-Origin" v
    ∉ trace (ServeMux (routes Decode) r (begin st)).
Proof.
  intros Hp. rewrite ServeMux_routes.
  rewrite (decide_False (P := Path r = _)) by exact Hp.
  repeat case_decide; not_among.
Qed.

(** C3, as amended.  The observability stage is the outermost one: for
    every request its clock reading is the first effect and its record
    the last, with the dispatch of the multiplexer in between.  The
    access-control stage is inside, on the processing route only: for
    a POST to the processing path its five headers come after the
    logger's first reading and before every effect of the terminal
    handler; on every other path it does not run. *)
Theorem C3_logger_outermost r st :
  (∃ inner,
     trace (serverHandler Decode r (begin st)) =
       ENow (clock st (ticks st)) :: inner ++
       [ENow (clock st (S (ticks st)));
        ELog (Info "request completed"
            [("method", VString (Method r));
             ("path", VString (Path r));
             ("duration",
              VDuration (clock st (S (ticks st)) - clock st (ticks st)));
             ("remote_addr", VString (RemoteAddr r))])] ∧
     inner = trace (ServeMux (routes Decode) r (begin st)) ∧
     (Method r = "POST" → Path r = "/api/v1/process" →
      inner = corsEffects ++ trace (handleProcess Decode r (begin st))) ∧
     (Path r ≠ "/api/v1/process" →
      ∀ v, ESet "Access-Control-Allow-Origin" v ∉ inner)).
Proof.
  exists (trace (ServeMux (routes Decode) r (begin st))).
  split; [apply logger_trace | split; [reflexivity | split]].
  - apply process_trace.
  - intros Hp v. by apply other_trace.
Qed.

(** *** Preflight *)

(** The access-control stage alone answers a preflight call with
    status 200, its five headers and no body, and does not call the
    handler it wraps. *)
Lemma corsMiddleware_preflight next r st :
  Method r = "OPTIONS" →
  reply r (corsMiddleware next r (begin st)) =
    {| StatusCode := StatusOK; Headers := corsHeaders; Content := [] |} ∧
  trace (corsMiddleware next r (begin st)) =
    corsEffects ++ [EWriteHeader StatusOK].
Proof.
  intros Hm. unfold corsMiddleware.
  rewrite (decide_True (P := Method r = _)) by exact Hm.
  unfold reply.
  rewrite (decide_False (P := Method r = "HEAD"))
    by (eapply not_head; [exact Hm | discriminate]).
  split; reflexivity.
Qed.

(** C4, on the code.  A preflight call (method OPTIONS) to the
    processing path never reaches the access-control stage: the route
    is registered for POST only, so the multiplexer answers with
    status 405, an [Allow: POST] header and the body
    [Method Not Allowed]; none of the cross-origin headers is set and
    the domain handler does not run. *)
Theorem C4_preflight_rejected r st :
  Method r = "OPTIONS" → Path r = "/api/v1/process" →
  (serve (serverHandler Decode) r st).1 =
    {| StatusCode := StatusMethodNotAllowed;
       Headers :=
         <["X-Content-Type-Options" := "nosniff"]>
           (<["Content-Type" := "text/plain; charset=utf-8"]>
             (<["Allow" := "POST"]> ∅));
       Content := [Bytes ("Method Not Allowed" +:+ Text.nl)] |} ∧
  trace (serve (serverHandler Decode) r st).2 =
    [ENow (clock st (ticks st));
     ESet "Allow" "POST";
     ESet "Content-Type" "text/plain; charset=utf-8";
     ESet "X-Content-Type-Options" "nosniff";
     EWriteHeader StatusMethodNotAllowed;
     EWrite (Bytes ("Method Not Allowed" +:+ Text.nl));
     ENow (clock st (S (ticks st)));
     ELog (Info "request completed"
         [("method", VString (Method r));
          ("path", VString (Path r));
          ("duration",
           VDuration (clock st (S (ticks st)) - clock st (ticks st)));
          ("remote_addr", VString (RemoteAddr r))])].
Proof.
  intros Hm Hp.
  assert (Method r ≠ "POST") as Hpost by (rewrite Hm; discriminate).
  split.
  - rewrite process_other_method by done.
    rewrite (decide_False (P := Method r = "HEAD"))
      by (eapply not_head; [exact Hm | discriminate]).
    reflexivity.
  - unfold serve. cbn [snd]. rewrite logger_trace, ServeMux_routes.
    rewrite (decide_True (P := Path r = _)) by exact Hp.
    rewrite (decide_False (P := Method r = _)) by exact Hpost.
    reflexivity.
Qed.

(** *** The processing endpoint *)

(** C5. A call to the processing path whose body does not decode is
    answered with a client error status and a plain-text body: status
    400 and [Invalid request body] for a POST, the multiplexer's 405
    for any other method; the configuration with the loaded templates
    and the file system are as before. *)
Theorem C5_malformed_body r st :
  Path r = "/api/v1/process" → Decode (Body r) = None →
  400 ≤ StatusCode (serve (serverHandler Decode) r st).1 < 500 ∧
  Headers (serve (serverHandler Decode) r st).1 !! "Content-Type"
    = Some "text/plain; charset=utf-8" ∧
  (Method r = "POST" →
   StatusCode (serve (serverHandler Decode) r st).1 = StatusBadRequest ∧
   Content (serve (serverHandler Decode) r st).1
     = [Bytes ("Invalid request body" +:+ Text.nl)]) ∧
  config (serve (serverHandler Decode) r st).2 = config st ∧
  disk (serve (serverHandler Decode) r st).2 = disk st.
Proof.
  intros Hp Hd. split; [|split; [|split; [|apply serve_keeps]]].
  - destruct (decide (Method r = "POST")) as [Hm|Hm].
    + rewrite process_malformed by done. cbn [fst StatusCode].
      unfold StatusBadRequest. lia.
    + rewrite process_other_method by done. cbn [StatusCode].
      unfold StatusMethodNotAllowed. lia.
  - destruct (decide (Method r = "POST")) as [Hm|Hm].
    + rewrite process_malformed by done. cbn [fst Headers].
      rewrite lookup_insert_ne by discriminate. apply lookup_insert_eq.
    + rewrite process_other_method by done. cbn [Headers].
      rewrite lookup_insert_ne by discriminate. apply lookup_insert_eq.
  - intros Hm. rewrite process_malformed by done. by split.
Qed.

(** C9. The handler checks neither enumeration nor emptiness: whatever
    structure the body of a POST decodes to, the answer has status 200,
    content type [application/json] and one JSON object whose [error]
    is null. *)
Theorem C9_no_validation r req st :
  Method r = "POST" → Path r = "/api/v1/process" →
  Decode (Body r) = Some req →
  StatusCode (serve (serverHandler Decode) r st).1 = StatusOK ∧
  Headers (serve (serverHandler Decode) r st).1 !! "Content-Type"
    = Some "application/json" ∧
  ∃ v, Content (serve (serverHandler Decode) r st).1 = [Encoded v] ∧
       v !! "error" = Some JNull ∧
       ∃ html, v !! "html" = Some (JString html).
Proof.
  intros Hm Hp Hd. rewrite (process_ok r req) by done.
  split; [reflexivity | split; [apply lookup_insert_eq|]].
  exists (processResponse req). split; [reflexivity | split].
  - apply lookup_insert_eq.
  - eexists. unfold processResponse.
    rewrite lookup_insert_ne by discriminate. apply lookup_insert_eq.
Qed.

(** C10. For a POST whose body decodes, the [html] field of the answer
    is the fixed text of the format with the four values of the
    request in the places of its verbs, each copied as it is. *)
Theorem C10_html_verbatim r req st :
  Method r = "POST" → Path r = "/api/v1/process" →
  Decode (Body r) = Some req →
  ∃ v, Content (serve (serverHandler Decode) r st).1 = [Encoded v] ∧
       v !! "html" = Some (JString
         (beforeCounty +:+ CountyName req +:+ beforeContentType
          +:+ ContentType req +:+ beforeFileLink +:+ FileLink req
          +:+ beforeParseMethod +:+ ParseMethod req +:+ afterParseMethod)).
Proof.
  intros Hm Hp Hd. rewrite (process_ok r req) by done.
  exists (processResponse req). split; [reflexivity|].
  unfold processResponse. rewrite lookup_insert_ne by discriminate.
  rewrite lookup_insert_eq. by rewrite processFormat_filled.
Qed.

(** *** The liveness probe *)

(** C7. [healthCheck] writes status 200, content type
    [application/json] and the fixed payload, whatever the request and
    whatever the state of the server; a GET of [/health] is answered
    with exactly that.  The payload is spelt out character by
    character, character 034 being the double quote: an opening brace,
    the quoted word status, a colon, the quoted word healthy, a closing
    brace; twenty characters, with no space and no line end. *)
Theorem C7_health_fixed r st :
  (wroteHeader (healthCheck r (begin st))
     = Some (StatusOK, <["Content-Type" := "application/json"]> ∅) ∧
   written (healthCheck r (begin st)) =
     [Bytes ("{" +:+ String "034"%char
               ("status" +:+ String "034"%char
                  (":" +:+ String "034"%char
                     ("healthy" +:+ String "034"%char "}"))))]) ∧
  String.length healthPayload = 20%nat ∧
  (Method r = "GET" → Path r = "/health" →
   (serve (serverHandler Decode) r st).1 =
     {| StatusCode := StatusOK;
        Headers := <["Content-Type" := "application/json"]> ∅;
        Content :=
          [Bytes ("{" +:+ String "034"%char
                    ("status" +:+ String "034"%char
                       (":" +:+ String "034"%char
                          ("healthy" +:+ String "034"%char "}"))))] |}).
Proof.
  split; [by split|]. split; [reflexivity|]. intros Hm Hp.
  unfold serve. rewrite serverHandler_unfold. cbv zeta.
  rewrite ServeMux_routes.
  rewrite (decide_False (P := Path r = "/api/v1/process"))
    by (rewrite Hp; discriminate).
  rewrite (decide_True (P := Path r = "/health")) by exact Hp.
  rewrite (decide_True (P := Method r = "GET" ∨ _)) by (by left).
  unfold reply.
  rewrite (decide_False (P := Method r = "HEAD"))
    by (eapply not_head; [exact Hm | discriminate]).
  reflexivity.
Qed.

End HTTPFacts.

(** ** Startup and shutdown *)

Section FSFacts.
Import Go FS.

Lemma child_of_spec dir p name :
  child_of dir p = Some name ↔ p = dir ++ [name].
Proof.
  revert p. induction dir as [|d dir IH]; intros p.
  - destruct p as [|x [|y p]]; simpl; split; intros H; by simplify_eq.
  - destruct p as [|c p]; simpl.
    + split; intros H; discriminate H.
    + case_decide as Hdc.
      * subst c. rewrite IH. split; intros H; by simplify_eq.
      * split; intros H; [discriminate H | by simplify_eq].
Qed.

(** The names [Readdirnames] lists are those of the nodes of the
    directory. *)
Lemma elem_of_Readdirnames (fs : gmap path node) dir name :
  name ∈ Readdirnames fs dir ↔ is_Some (fs !! (dir ++ [name])).
Proof.
  unfold Readdirnames. rewrite merge_sort_Permutation.
  rewrite list_elem_of_omap. split.
  - intros (p & Hp & Hc). apply child_of_spec in Hc as ->.
    apply list_elem_of_fmap in Hp as ([p n] & -> & Hin).
    apply elem_of_map_to_list in Hin. by exists n.
  - intros [n Hn]. exists (dir ++ [name]). split.
    + apply list_elem_of_fmap. exists (dir ++ [name], n).
      split; [done | by apply elem_of_map_to_list].
    + by apply child_of_spec.
Qed.

(** [Glob] finds nothing when the directory cannot be looked up. *)
Lemma Glob_absent (fs : gmap path node) dir file err :
  Stat fs dir = Err err → Glob fs (dir ++ [file]) = [].
Proof.
  intros H. unfold Glob, split_last. rewrite reverse_snoc, reverse_involutive.
  by rewrite H.
Qed.

(** [Glob] finds nothing in a directory none of whose names matches. *)
Lemma Glob_no_match (fs : gmap path node) dir file :
  (∀ name, is_Some (fs !! (dir ++ [name])) → Match file name = false) →
  Glob fs (dir ++ [file]) = [].
Proof.
  intros H. unfold Glob, split_last. rewrite reverse_snoc, reverse_involutive.
  destruct (Stat fs dir) as [[]|]; try done.
  destruct (filter _ (Readdirnames fs dir)) as [|name rest] eqn:Hf; [done|].
  assert (name ∈ filter (λ name, Match file name) (Readdirnames fs dir))
    as Hin by (rewrite Hf; left).
  apply list_elem_of_filter in Hin as [Hm Hin].
  apply elem_of_Readdirnames in Hin. by rewrite (H name Hin) in Hm.
Qed.

End FSFacts.

Section LifecycleFacts.
Import Go Lifecycle.
Variable parses : string → bool.
Variable Decode : string → option HTTP.ProcessRequest.

(** When the pattern matches no file the load fails with an error
    that is no not-exist error, and [main] takes its last branch. *)
Lemma loadTemplates_no_files (fs : gmap path FS.node) :
  FS.Glob fs (templateDir ++ ["*.html"]) = [] →
  loadTemplates parses fs =
    {| disk := fs;
       logged := [Error "failed to load templates"
                    [("error",
                      VError (ErrNoMatch (templateDir ++ ["*.html"])))]];
       result_ := Exit 1 |}.
Proof. intros H. unfold loadTemplates, ParseGlob. by rewrite H. Qed.

Lemma main_no_files w :
  FS.Glob (files w) (templateDir ++ ["*.html"]) = [] →
  main parses Decode w =
    {| events :=
         [Stdout startupBanner;
          Logged (Info "server initialization"
                    [("go_version", VString (Version w));
                     ("os", VString (GOOS w));
                     ("arch", VString (GOARCH w));
                     ("cpu_cores", VInt (NumCPU w))]);
          Logged (Error "failed to load templates"
                    [("error",
                      VError (ErrNoMatch (templateDir ++ ["*.html"])))])];
       exitCode := 1;
       filesAfter := files w |}.
Proof.
  intros H. unfold main. by rewrite (loadTemplates_no_files _ H).
Qed.

(** The branch of [main] that creates the directory and the default
    template is entered only on a not-exist error, and the load gives
    such an error only for a file that [Glob] has listed. *)
Lemma not_exist_needs_listed_file (fs : gmap path FS.node) pat err :
  ParseGlob parses fs pat = Err err → IsNotExist err = true →
  FS.Glob fs pat ≠ [].
Proof.
  unfold ParseGlob. intros H Hne Hg. rewrite Hg in H.
  injection H as <-. discriminate Hne.
Qed.

(** C1, on the code.  When the template directory does not exist, the
    load fails with [pattern matches no files], which [os.IsNotExist]
    does not recognise: [main] logs [failed to load templates] and
    exits with status 1.  Nothing is created and [ListenAndServe] is
    not called. *)
Theorem C1_absent_directory_exits w :
  FS.Stat (files w) templateDir
    = Err (PathError "stat" templateDir ENOENT) →
  exitCode (main parses Decode w) = 1 ∧
  servingReached (main parses Decode w) = false ∧
  filesAfter (main parses Decode w) = files w ∧
  last (events (main parses Decode w)) =
    Some (Logged (Error "failed to load templates"
            [("error", VError (ErrNoMatch (templateDir ++ ["*.html"])))])).
Proof.
  intros H. rewrite main_no_files by exact (Glob_absent _ _ _ _ H).
  by repeat split.
Qed.

(** C2, as amended.  When the template directory exists and none of
    its names ends in [.html], the load fails with
    [pattern matches no files]: [main] logs [failed to load templates]
    and exits with status 1, the file system is as before and
    [ListenAndServe] is not called. *)
Theorem C2_no_matching_asset_exits w :
  FS.Stat (files w) templateDir = Ok FS.Dir →
  (∀ name, is_Some (files w !! (templateDir ++ [name])) →
           FS.Match "*.html" name = false) →
  exitCode (main parses Decode w) = 1 ∧
  servingReached (main parses Decode w) = false ∧
  filesAfter (main parses Decode w) = files w ∧
  last (events (main parses Decode w)) =
    Some (Logged (Error "failed to load templates"
            [("error", VError (ErrNoMatch (templateDir ++ ["*.html"])))])).
Proof.
  intros _ H. rewrite main_no_files by exact (Glob_no_match _ _ _ H).
  by repeat split.
Qed.

(** C6. The drain budget is ten seconds.  When [server.Shutdown] does
    not finish within it and returns an error, [gracefulShutdown] logs
    [server shutdown failed] with that error, calls [server.Close],
    and ends with [server stopped]; a shutdown that finishes in time
    logs [server stopped] alone.  The run does not exit with a failure
    status: [main] returns, with exit status 0. *)
Theorem C6_forced_close w err :
  shutdownResult w shutdownTimeout = Some err →
  shutdownTimeout = 10 * Second ∧
  gracefulShutdown w =
    Shutdown (10 * Second) ::
    Logged (Error "server shutdown failed" [("error", VError err)]) ::
    Close ::
    match closeResult w with
    | Some err' =>
        [Logged (Error "server close failed" [("error", VError err')])]
    | None => []
    end ++ [Logged (Info "server stopped" [])] ∧
  (∀ w', shutdownResult w' shutdownTimeout = None →
         gracefulShutdown w' =
           [Shutdown (10 * Second); Logged (Info "server stopped" [])]) ∧
  (∀ tmpl, result_ (loadTemplates parses (files w)) = Proceed tmpl →
           exitCode (main parses Decode w) = 0 ∧
           ∃ before, events (main parses Decode w)
                       = before ++ gracefulShutdown w).
Proof.
  intros H. split; [reflexivity|]. split; [|split].
  - unfold gracefulShutdown. by rewrite H.
  - intros w' H'. unfold gracefulShutdown. by rewrite H'.
  - intros tmpl Hb. unfold main. rewrite Hb. split; [reflexivity|].
    cbn [events]. unfold startServer. eexists.
    rewrite !(assoc_L (++)). reflexivity.
Qed.

End LifecycleFacts.

(** ** The properties on sample inputs *)

Section Instances.
Import Go HTTP Lifecycle Samples.

(** C3, as amended, on a POST to the processing path. *)
Lemma C3_logger_outermost_witness :
  ∃ inner,
    trace (serverHandler Decode (request "POST" "/api/v1/process" kernBody)
             (begin idle)) =
      ENow 0 :: inner ++
      [ENow 1000000;
       ELog (Info "request completed"
           [("method", VString "POST");
            ("path", VString "/api/v1/process");
            ("duration", VDuration 1000000);
            ("remote_addr", VString "127.0.0.1:40000")])] ∧
    inner = corsEffects ++
      [ESet "Content-Type" "application/json";
       EWrite (Encoded (processResponse kern))].
Proof.
  destruct (C3_logger_outermost Decode
              (request "POST" "/api/v1/process" kernBody) idle)
    as (inner & Htrace & _ & Hprocess & _).
  exists inner. split; [exact Htrace|].
  rewrite Hprocess by reflexivity. reflexivity.
Defined.

(** C3, as stated, fails: were the access-control stage outermost, its
    five headers would come first and the logger's clock reading
    after them.  For a POST to the processing path the first effect is
    the logger's clock reading. *)
Lemma C3_counterexample :
  ¬ ∃ t rest,
      trace (serverHandler Decode (request "POST" "/api/v1/process" kernBody)
               (begin idle)) = corsEffects ++ ENow t :: rest.
Proof.
  intros (t & rest & H). rewrite logger_trace in H. discriminate H.
Qed.

(** C4 on a preflight call to the processing path. *)
Lemma C4_preflight_rejected_witness :
  Method (request "OPTIONS" "/api/v1/process" "") = "OPTIONS" ∧
  Path (request "OPTIONS" "/api/v1/process" "") = "/api/v1/process" ∧
  StatusCode
    (serve (serverHandler Decode) (request "OPTIONS" "/api/v1/process" "")
       idle).1 = 405 ∧
  Content
    (serve (serverHandler Decode) (request "OPTIONS" "/api/v1/process" "")
       idle).1 = [Bytes ("Method Not Allowed" +:+ Text.nl)].
Proof.
  split; [reflexivity | split; [reflexivity|]].
  destruct (C4_preflight_rejected Decode
              (request "OPTIONS" "/api/v1/process" "") idle
              eq_refl eq_refl) as [H _].
  rewrite H. by split.
Defined.

(** C5 on a POST whose body is no JSON text. *)
Lemma C5_malformed_body_witness :
  Decode "not json" = None ∧
  StatusCode
    (serve (serverHandler Decode)
       (request "POST" "/api/v1/process" "not json") idle).1 = 400 ∧
  Content
    (serve (serverHandler Decode)
       (request "POST" "/api/v1/process" "not json") idle).1
    = [Bytes ("Invalid request body" +:+ Text.nl)] ∧
  HTTP.disk (serve (serverHandler Decode)
          (request "POST" "/api/v1/process" "not json") idle).2 = ∅.
Proof.
  split; [reflexivity|].
  destruct (C5_malformed_body Decode
              (request "POST" "/api/v1/process" "not json") idle
              eq_refl eq_refl) as (_ & _ & Hpost & _ & Hdisk).
  destruct (Hpost eq_refl) as [Hs Hc].
  split; [exact Hs | split; [exact Hc | exact Hdisk]].
Defined.

(** C7 on a GET of [/health] that carries a body: the twenty
    characters of the answer, one by one. *)
Lemma C7_health_fixed_witness :
  (serve (serverHandler Decode) (request "GET" "/health" kernBody) idle).1 =
    {| StatusCode := 200;
       Headers := <["Content-Type" := "application/json"]> ∅;
       Content :=
         [Bytes
            (String "{" (String "034" (String "s" (String "t" (String "a"
            (String "t" (String "u" (String "s" (String "034" (String ":"
            (String "034" (String "h" (String "e" (String "a" (String "l"
            (String "t" (String "h" (String "y" (String "034" (String "}"
             EmptyString))))))))))))))))))))%char] |}.
Proof.
  exact (proj2 (proj2 (C7_health_fixed Decode
                         (request "GET" "/health" kernBody) idle))
           eq_refl eq_refl).
Defined.

(** C9 on a body outside both enumerations, with no county name. *)
Lemma C9_no_validation_witness :
  Decode oddBody = Some odd ∧
  StatusCode
    (serve (serverHandler Decode) (request "POST" "/api/v1/process" oddBody)
       idle).1 = 200 ∧
  ∃ v, Content
         (serve (serverHandler Decode)
            (request "POST" "/api/v1/process" oddBody) idle).1
         = [Encoded v] ∧
       v !! "error" = Some JNull.
Proof.
  split; [reflexivity|].
  destruct (C9_no_validation Decode
              (request "POST" "/api/v1/process" oddBody) odd idle
              eq_refl eq_refl eq_refl) as (Hs & _ & v & Hc & He & _).
  split; [exact Hs | exists v; split; [exact Hc | exact He]].
Defined.

(** C10 on a file link that holds markup and a verb. *)
Lemma C10_html_verbatim_witness :
  ∃ v, Content
         (serve (serverHandler Decode)
            (request "POST" "/api/v1/process" oddBody) idle).1
         = [Encoded v] ∧
       v !! "html" = Some (JString
         (beforeCounty +:+ "" +:+ beforeContentType +:+ "recall"
          +:+ beforeFileLink +:+ "<script>%s</script>"
          +:+ beforeParseMethod +:+ "csv" +:+ afterParseMethod)).
Proof.
  exact (C10_html_verbatim Decode
           (request "POST" "/api/v1/process" oddBody) odd idle
           eq_refl eq_refl eq_refl).
Defined.

(** C1 on the empty file system. *)
Lemma C1_absent_directory_exits_witness :
  FS.Stat bare templateDir = Err (PathError "stat" templateDir ENOENT) ∧
  exitCode (main (λ _, true) Decode (world bare ∅)) = 1 ∧
  servingReached (main (λ _, true) Decode (world bare ∅)) = false ∧
  filesAfter (main (λ _, true) Decode (world bare ∅)) = bare.
Proof.
  split; [reflexivity|].
  destruct (C1_absent_directory_exits (λ _, true) Decode (world bare ∅)
              eq_refl) as (H1 & H2 & H3 & _).
  split; [exact H1 | split; [exact H2 | exact H3]].
Defined.

(** C2, as stated, fails: with the directory present and empty, the
    run ends with status 1 before [ListenAndServe]. *)
Lemma C2_counterexample :
  FS.Stat emptyDir templateDir = Ok FS.Dir ∧
  FS.Readdirnames emptyDir templateDir = [] ∧
  exitCode (main (λ _, true) Decode (world emptyDir ∅)) = 1 ∧
  servingReached (main (λ _, true) Decode (world emptyDir ∅)) = false.
Proof. vm_compute. by repeat split. Qed.

(** The only name in the template directory of [notesOnly]. *)
Lemma notesOnly_names name :
  is_Some (notesOnly !! (templateDir ++ [name])) → name = "notes.txt".
Proof.
  intros H. apply elem_of_Readdirnames in H.
  assert (FS.Readdirnames notesOnly templateDir = ["notes.txt"]) as Hn
    by (vm_compute; reflexivity).
  rewrite Hn in H. by apply list_elem_of_singleton in H.
Defined.

(** C2, as amended, on a directory that holds one text file. *)
Lemma C2_no_matching_asset_exits_witness :
  FS.Stat notesOnly templateDir = Ok FS.Dir ∧
  exitCode (main (λ _, true) Decode (world notesOnly ∅)) = 1 ∧
  servingReached (main (λ _, true) Decode (world notesOnly ∅)) = false ∧
  filesAfter (main (λ _, true) Decode (world notesOnly ∅)) = notesOnly.
Proof.
  split; [reflexivity|].
  assert (∀ name, is_Some (notesOnly !! (templateDir ++ [name])) →
                  FS.Match "*.html" name = false) as Hnone
    by (intros name H; apply notesOnly_names in H; by subst name).
  destruct (C2_no_matching_asset_exits (λ _, true) Decode
              (world notesOnly ∅) eq_refl Hnone) as (H1 & H2 & H3 & _).
  split; [exact H1 | split; [exact H2 | exact H3]].
Defined.

(** C6 on a server that needs fifteen seconds to drain. *)
Lemma C6_forced_close_witness :
  shutdownResult (world ready ∅) shutdownTimeout = Some DeadlineExceeded ∧
  gracefulShutdown (world ready ∅) =
    [Shutdown (10 * Second);
     Logged (Error "server shutdown failed"
               [("error", VError DeadlineExceeded)]);
     Close;
     Logged (Info "server stopped" [])] ∧
  exitCode (main (λ _, true) Decode (world ready ∅)) = 0.
Proof.
  split; [reflexivity|].
  destruct (C6_forced_close (λ _, true) Decode (world ready ∅)
              DeadlineExceeded eq_refl) as (_ & Hlog & _ & Hmain).
  split; [exact Hlog|].
  apply (Hmain [("default.html", defaultContent)]).
  vm_compute. reflexivity.
Defined.

(** The branch that creates the default template, reached: the
    directory lists [default.html], a link whose target is gone; the
    file is written through the link and the second load succeeds. *)
Example healed_through_link :
  logged (loadTemplates (λ _, true) linked) =
    [Info "created default template"
       [("path", VPath ["internal"; "templates"; "default.html"])]] ∧
  result_ (loadTemplates (λ _, true) linked) =
    Proceed [("default.html", defaultContent)].
Proof. vm_compute. by split. Qed.

(** With a template in place the run reaches [ListenAndServe] on the
    default port. *)
Example ready_serves :
  servingReached (main (λ _, true) Decode (world ready ∅)) = true ∧
  exitCode (main (λ _, true) Decode (world ready ∅)) = 0.
Proof. vm_compute. by split. Qed.

Example Match_html :
  FS.Match "*.html" "index.html" = true ∧
  FS.Match "*.html" ".html" = true ∧
  FS.Match "*.html" "notes.txt" = false.
Proof. vm_compute. by repeat split. Qed.

Example Sprintf_operands :
  Text.Sprintf "a%sb%s" ["%s"] = "a%sb%!s(MISSING)" ∧
  Text.Sprintf "a%sb" ["x"; "y"] = "axb%!(EXTRA string=y)".
Proof. vm_compute. by split. Qed.

End Instances.

(** * Further properties *)

(** ** The pipeline on every request *)

Section PipelineFacts.
Import Go HTTP.
Variable Decode : string → option ProcessRequest.

Ltac absurd_method :=
  match goal with
  | H1 : Method ?r = ?a, H2 : Method ?r = ?b |- _ =>
      exfalso; rewrite H1 in H2; discriminate H2
  | H1 : Method ?r = ?a, H2 : Method ?r ≠ ?a |- _ =>
      exfalso; exact (H2 H1)
  | H1 : Path ?r = ?a, H2 : Path ?r = ?b |- _ =>
      exfalso; rewrite H1 in H2; discriminate H2
  end.

Ltac by_route :=
  rewrite ?serverHandler_unfold; cbv zeta; rewrite ?ServeMux_routes;
  unfold corsMiddleware, handleProcess;
  repeat case_decide; try destruct (Decode (Body _));
  first [reflexivity | absurd_method].

(** X1. The logger hands exactly one record to the log for every
    request, whatever the route answers: method, path, remote address
    and the difference of its two clock readings; no other stage logs
    or reads the clock. *)
Theorem X1_one_record_per_request r st :
  logs (serve (serverHandler Decode) r st).2 =
    logs st ++
    [Info "request completed"
       [("method", VString (Method r));
        ("path", VString (Path r));
        ("duration",
         VDuration (clock st (S (ticks st)) - clock st (ticks st)));
        ("remote_addr", VString (RemoteAddr r))]] ∧
  ticks (serve (serverHandler Decode) r st).2 = S (S (ticks st)).
Proof. unfold serve. cbn [snd]. split; by_route. Qed.

(** X2. The logger does not touch the answer: with it or without it
    the client receives the same status, headers and body. *)
Theorem X2_logger_transparent r st :
  (serve (serverHandler Decode) r st).1 =
  (serve (ServeMux (routes Decode)) r st).1.
Proof. unfold serve. cbn [fst]. unfold reply. by_route. Qed.




(** X4. The access-control stage around any handler answers a request
    of method OPTIONS itself: status 200, its five headers, no body;
    the wrapped handler is not called, so the outcome is the same
    whatever handler is wrapped. *)
Theorem X4_preflight_short_circuit next next' r st :
  Method r = "OPTIONS" →
  corsMiddleware next r st = corsMiddleware next' r st ∧
  reply r (corsMiddleware next r (begin st)) =
    {| StatusCode := StatusOK; Headers := corsHeaders; Content := [] |} ∧
  trace (corsMiddleware next r (begin st)) =
    corsEffects ++ [EWriteHeader StatusOK].
Proof.
  intros Hm. unfold corsMiddleware.
  rewrite !(decide_True (P := Method r = _)) by exact Hm.
  unfold reply.
  rewrite (decide_False (P := Method r = "HEAD"))
    by (eapply not_head; [exact Hm | discriminate]).
  by repeat split.
Qed.

(** The answer of [handleProcess] to a writer that has sent nothing
    yet. *)
Lemma handleProcess_reply r s :
  wroteHeader s = None → written s = [] →
  reply r (handleProcess Decode r s) =
    if decide (Method r ≠ "POST") then
      {| StatusCode := StatusMethodNotAllowed;
         Headers :=
           <["X-Content-Type-Options" := "nosniff"]>
             (<["Content-Type" := "text/plain; charset=utf-8"]> (header s));
         Content :=
           if decide (Method r = "HEAD") then []
           else [Bytes ("Method not allowed" +:+ Text.nl)] |}
    else
      match Decode (Body r) with
      | None =>
          {| StatusCode := StatusBadRequest;
             Headers :=
               <["X-Content-Type-Options" := "nosniff"]>
                 (<["Content-Type" := "text/plain; charset=utf-8"]>
                    (header s));
             Content :=
               if decide (Method r = "HEAD") then []
               else [Bytes ("Invalid request body" +:+ Text.nl)] |}
      | Some req =>
          {| StatusCode := StatusOK;
             Headers := <["Content-Type" := "application/json"]> (header s);
             Content :=
               if decide (Method r = "HEAD") then []
               else [Encoded (processResponse req)] |}
      end.
Proof.
  destruct s as [h wrote body tr clk n lg cfg dsk]. cbn [wroteHeader written].
  intros -> ->. unfold handleProcess, reply.
  case_decide; [|destruct (Decode (Body r))]; reflexivity.
Qed.

(** X5. For every method but OPTIONS the access-control stage only
    adds its five headers: status and body are those [handleProcess]
    gives without the stage, and the headers are those of
    [handleProcess] together with the five.  This holds for the error
    answers too. *)
Theorem X5_cors_adds_headers_only r st :
  Method r ≠ "OPTIONS" →
  StatusCode (reply r (corsMiddleware (handleProcess Decode) r (begin st)))
    = StatusCode (reply r (handleProcess Decode r (begin st))) ∧
  Content (reply r (corsMiddleware (handleProcess Decode) r (begin st)))
    = Content (reply r (handleProcess Decode r (begin st))) ∧
  Headers (reply r (corsMiddleware (handleProcess Decode) r (begin st)))
    = Headers (reply r (handleProcess Decode r (begin st))) ∪ corsHeaders.
Proof.
  intros Hm. unfold corsMiddleware.
  rewrite (decide_False (P := Method r = _)) by exact Hm.
  rewrite !handleProcess_reply by reflexivity.
  case_decide; [|destruct (Decode (Body r))];
    (split; [reflexivity | split; [reflexivity|]]); cbn [Headers];
    change (header (begin st)) with (∅ : gmap string string);
    rewrite <- ?insert_union_l, (left_id_L ∅ (∪)); reflexivity.
Qed.

Ltac never_written :=
  intros Hin;
  repeat (apply elem_of_cons in Hin as [Hin|Hin]; [discriminate Hin|]);
  by apply elem_of_nil in Hin.

(** X6. The method check of [handleProcess]: called with any method
    but POST it answers status 405 and [Method not allowed] without
    reading the body.  Behind the multiplexer the check never fires:
    no request makes the server write that body. *)
Theorem X6_method_guard r st :
  (Method r ≠ "POST" →
   ∀ Decode',
     handleProcess Decode r st = handleProcess Decode' r st ∧
     StatusCode (reply r (handleProcess Decode r (begin st)))
       = StatusMethodNotAllowed ∧
     written (handleProcess Decode r (begin st))
       = [Bytes ("Method not allowed" +:+ Text.nl)]) ∧
  EWrite (Bytes ("Method not allowed" +:+ Text.nl))
    ∉ trace (serverHandler Decode r (begin st)).
Proof.
  split.
  - intros Hm Decode'. unfold handleProcess, reply.
    rewrite !(decide_True (P := Method r ≠ _)) by exact Hm.
    by repeat split.
  - rewrite logger_trace, ServeMux_routes.
    unfold corsMiddleware, handleProcess.
    repeat case_decide; try destruct (Decode (Body r));
      first [absurd_method | never_written].
Qed.

End PipelineFacts.

(** ** The file system operations *)

Section MoreFSFacts.
Import Go FS.

Lemma split_last_snoc (p : path) (name : string) :
  split_last (p ++ [name]) = Some (p, name).
Proof. unfold split_last. by rewrite reverse_snoc, reverse_involutive. Qed.

(** [Glob] lists something only in a directory, and what it lists are
    names of that directory that match. *)
Lemma Glob_nonempty_dir (fs : gmap path node) dir file :
  Glob fs (dir ++ [file]) ≠ [] → Stat fs dir = Ok Dir.
Proof.
  unfold Glob. rewrite split_last_snoc.
  by destruct (Stat fs dir) as [[]|].
Qed.

Lemma elem_of_Glob (fs : gmap path node) dir file p :
  p ∈ Glob fs (dir ++ [file]) →
  ∃ name, p = dir ++ [name] ∧ Match file name = true ∧
          is_Some (fs !! (dir ++ [name])).
Proof.
  unfold Glob. rewrite split_last_snoc.
  destruct (Stat fs dir) as [[]|]; try by intros ?%elem_of_nil.
  intros (name & -> & Hin)%list_elem_of_fmap.
  apply list_elem_of_filter in Hin as [Hm Hin].
  exists name. split; [done|]. split; [by apply Is_true_true|].
  by apply elem_of_Readdirnames.
Qed.

Lemma MkdirAll_rev_unfold (fs : gmap path node) rp :
  MkdirAll_rev fs rp =
    match Stat fs (reverse rp) with
    | Ok Dir => (fs, None)
    | Ok _ => (fs, Some (PathError "mkdir" (reverse rp) ENOTDIR))
    | Err _ =>
        match rp with
        | [] => (fs, None)
        | _ :: parent =>
            let '(fs1, err) :=
              match parent with
              | [] => (fs, None)
              | _ => MkdirAll_rev fs parent
              end in
            match err with
            | Some e => (fs1, Some e)
            | None =>
                match Mkdir fs1 (reverse rp) with
                | (fs2, None) => (fs2, None)
                | (fs2, Some e) =>
                    match Lstat fs1 (reverse rp) with
                    | Ok Dir => (fs2, None)
                    | _ => (fs2, Some e)
                    end
                end
            end
        end
    end.
Proof. by destruct rp. Qed.

(** [MkdirAll] on a directory that exists does nothing. *)
Lemma MkdirAll_existing (fs : gmap path node) p :
  Stat fs p = Ok Dir → MkdirAll fs p = (fs, None).
Proof.
  intros H. unfold MkdirAll. rewrite MkdirAll_rev_unfold.
  by rewrite reverse_involutive, H.
Qed.

(** [WriteFile] changes the one path it is given, or fails and changes
    nothing. *)
Lemma WriteFile_cases (fs : gmap path node) p data :
  WriteFile fs p data = (<[p := File data]> fs, None) ∨
  ∃ err, WriteFile fs p data = (fs, Some err).
Proof.
  unfold WriteFile. destruct (split_last p) as [[parent name]|]; [|eauto].
  destruct (walk true fs [] parent) as [e|[]]; eauto.
  destruct (fs !! p) as [[| |[]]|]; eauto.
Qed.

(** [WriteFile] neither makes nor unmakes a directory. *)
Lemma WriteFile_dirs (fs : gmap path node) p data q :
  (WriteFile fs p data).1 !! q = Some Dir ↔ fs !! q = Some Dir.
Proof.
  unfold WriteFile. destruct (split_last p) as [[parent name]|]; [|done].
  destruct (walk true fs [] parent) as [e|[]]; try done.
  destruct (fs !! p) as [n|] eqn:Hp; [destruct n as [| |[]]|]; try done;
    cbn [fst]; (destruct (decide (p = q)) as [<-|Hq];
      [rewrite lookup_insert_eq; unfold path in *; rewrite Hp; split;
         discriminate
      |by rewrite lookup_insert_ne]).
Qed.

End MoreFSFacts.

(** ** The template bootstrap on every file system *)

Section BootstrapFacts.
Import Go Lifecycle.
Variable parses : string → bool.
Variable Decode : string → option HTTP.ProcessRequest.

(** What [parseFiles] returns: one entry for each file, in order, under
    its base name, with the text read from it, which parses. *)
Lemma parseFiles_ok (fs : gmap path FS.node) filenames t t' :
  parseFiles parses fs filenames t = Ok t' →
  ∃ added, t' = t ++ added ∧
    Forall2 (λ f e, e.1 = Base f ∧ FS.ReadFile fs f = Ok e.2 ∧
                    parses e.2 = true) filenames added.
Proof.
  revert t. induction filenames as [|f rest IH]; intros t H; simpl in H.
  - injection H as <-. exists []. by rewrite (right_id_L [] (++)).
  - destruct (FS.ReadFile fs f) as [data|] eqn:Hr; [|discriminate H].
    destruct (parses data) eqn:Hp; [|discriminate H].
    apply IH in H as (added & -> & Hall).
    exists ((Base f, data) :: added). rewrite <- (assoc_L (++)).
    split; [done|]. by constructor.
Qed.

Lemma Base_snoc (dir : path) name : Base (dir ++ [name]) = name.
Proof. unfold Base. by rewrite split_last_snoc. Qed.

(** A load that succeeds gives at least one template; each one is a
    file of the directory whose name matches and whose text parses. *)
Lemma ParseGlob_ok (fs : gmap path FS.node) dir file tmpl :
  ParseGlob parses fs (dir ++ [file]) = Ok tmpl →
  tmpl ≠ [] ∧
  ∀ name data, (name, data) ∈ tmpl →
    FS.Match file name = true ∧ parses data = true ∧
    FS.ReadFile fs (dir ++ [name]) = Ok data.
Proof.
  unfold ParseGlob.
  destruct (FS.Glob fs (dir ++ [file])) as [|f rest] eqn:Hg; [done|].
  intros (added & -> & Hall)%parseFiles_ok. rewrite (left_id_L [] (++)). split.
  - by inversion Hall.
  - intros name data Hin.
    apply list_elem_of_lookup in Hin as [i Hi].
    destruct (Forall2_lookup_r _ _ _ _ _ Hall Hi) as (p & Hp & Hb & Hr & Hd).
    assert (p ∈ FS.Glob fs (dir ++ [file])) as Hin
      by (rewrite Hg; by eapply list_elem_of_lookup_2).
    apply elem_of_Glob in Hin as (name' & -> & Hm & _).
    simpl in Hb, Hr, Hd. rewrite Base_snoc in Hb. subst name'. done.
Qed.

(** X7. The bootstrap neither creates nor removes a directory: the
    directories are the same before and after.  The branch that calls
    [MkdirAll] is entered only when the template directory exists, so
    the call changes nothing; and only on that branch, after a first
    load that failed on a file that does not exist, is the file system
    written at all. *)
Theorem X7_bootstrap_creates_no_directory (fs : gmap path FS.node) :
  (∀ p, disk (loadTemplates parses fs) !! p = Some FS.Dir ↔
        fs !! p = Some FS.Dir) ∧
  (∀ err, ParseGlob parses fs (templateDir ++ ["*.html"]) = Err err →
     IsNotExist err = true →
     FS.Stat fs templateDir = Ok FS.Dir ∧
     FS.MkdirAll fs templateDir = (fs, None)) ∧
  (disk (loadTemplates parses fs) ≠ fs →
     ∃ err, ParseGlob parses fs (templateDir ++ ["*.html"]) = Err err ∧
            IsNotExist err = true).
Proof.
  assert (∀ err, ParseGlob parses fs (templateDir ++ ["*.html"]) = Err err →
            IsNotExist err = true →
            FS.Stat fs templateDir = Ok FS.Dir ∧
            FS.MkdirAll fs templateDir = (fs, None)) as Hheal.
  { intros err Hload Hne.
    pose proof (Glob_nonempty_dir _ _ _
                  (not_exist_needs_listed_file parses _ _ _ Hload Hne))
      as Hdir.
    split; [exact Hdir | by apply MkdirAll_existing]. }
  split; [|split; [exact Hheal|]]; unfold loadTemplates;
    destruct (ParseGlob parses fs (templateDir ++ ["*.html"]))
      as [tmpl|err] eqn:Hload; try done;
    destruct (IsNotExist err) eqn:Hne; try done.
  - intros p. destruct (Hheal err eq_refl Hne) as [_ ->].
    pose proof (WriteFile_dirs fs (templateDir ++ ["default.html"])
                  defaultContent p) as Hw.
    destruct (FS.WriteFile fs (templateDir ++ ["default.html"])
                defaultContent) as [fs2 [e|]]; [exact Hw|].
    destruct (ParseGlob parses fs2 _); exact Hw.
  - intros _. eauto.
Qed.

(** X8. Whenever the bootstrap lets [main] go on, the template set is
    not empty, and each template is a file of the template directory
    whose name ends in [.html] and whose text parses: the server never
    starts without a template. *)
Theorem X8_templates_loaded (fs : gmap path FS.node) tmpl :
  result_ (loadTemplates parses fs) = Proceed tmpl →
  tmpl ≠ [] ∧
  ∀ name data, (name, data) ∈ tmpl →
    FS.Match "*.html" name = true ∧ parses data = true ∧
    FS.ReadFile (disk (loadTemplates parses fs)) (templateDir ++ [name])
      = Ok data.
Proof.
  unfold loadTemplates.
  destruct (ParseGlob parses fs (templateDir ++ ["*.html"]))
    as [tmpl0|err] eqn:Hload.
  { intros [= ->]. by apply ParseGlob_ok. }
  destruct (IsNotExist err); [|discriminate].
  destruct (FS.MkdirAll fs templateDir) as [fs1 [e|]]; [discriminate|].
  destruct (FS.WriteFile fs1 (templateDir ++ ["default.html"])
              defaultContent) as [fs2 [e|]]; [discriminate|].
  destruct (ParseGlob parses fs2 (templateDir ++ ["*.html"]))
    as [tmpl2|err2] eqn:Hload2; [|discriminate].
  intros [= ->]. by apply ParseGlob_ok.
Qed.

(** How the bootstrap ends: a fatal end has status 1 and one record of
    level error; otherwise nothing is logged, or the one line that
    reports the default template. *)
Lemma loadTemplates_ends (fs : gmap path FS.node) :
  match result_ (loadTemplates parses fs) with
  | Exit code =>
      code = 1 ∧ ∃ msg kv, logged (loadTemplates parses fs) = [Error msg kv]
  | Proceed _ =>
      logged (loadTemplates parses fs) = [] ∨
      logged (loadTemplates parses fs) =
        [Info "created default template"
           [("path", VPath (templateDir ++ ["default.html"]))]]
  end.
Proof.
  unfold loadTemplates.
  destruct (ParseGlob parses fs (templateDir ++ ["*.html"]))
    as [tmpl0|err]; [by left|].
  destruct (IsNotExist err); [|split; [reflexivity | eexists _, _; reflexivity]].
  destruct (FS.MkdirAll fs templateDir) as [fs1 [e|]]; [split; [reflexivity | eexists _, _; reflexivity]|].
  destruct (FS.WriteFile fs1 (templateDir ++ ["default.html"])
              defaultContent) as [fs2 [e|]]; [split; [reflexivity | eexists _, _; reflexivity]|].
  destruct (ParseGlob parses fs2 (templateDir ++ ["*.html"]));
    [by right | split; [reflexivity | eexists _, _; reflexivity]].
Qed.

(** X9. Every fatal end of the bootstrap has exit status 1 and hands
    exactly one record, of level error, to the logger; a bootstrap
    that succeeds logs nothing, or only that the default template was
    created. *)
Theorem X9_bootstrap_log (fs : gmap path FS.node) :
  (∀ code, result_ (loadTemplates parses fs) = Exit code →
     code = 1 ∧
     ∃ msg kv, logged (loadTemplates parses fs) = [Error msg kv]) ∧
  (∀ tmpl, result_ (loadTemplates parses fs) = Proceed tmpl →
     Forall (λ rec, level rec = LevelInfo) (logged (loadTemplates parses fs)) ∧
     (length (logged (loadTemplates parses fs)) ≤ 1)%nat).
Proof.
  pose proof (loadTemplates_ends fs) as H. split.
  - intros code Hc. rewrite Hc in H. exact H.
  - intros tmpl Ht. rewrite Ht in H.
    destruct H as [-> | ->]; split; simpl; try lia; by repeat constructor.
Qed.

Lemma no_listen_in_log (l : list Record_) :
  existsb isListen (Logged <$> l) = false.
Proof. induction l as [|rec l IH]; [done | exact IH]. Qed.

(** X10. The exit status of a run is 0 or 1; it is 0 exactly when the
    templates were loaded, and exactly then the run reaches
    [ListenAndServe].  Neither what ends the wait (a signal or a
    server error such as a failed bind) nor a failed shutdown changes
    the status. *)
Theorem X10_exit_status w :
  (exitCode (main parses Decode w) = 0 ∨
   exitCode (main parses Decode w) = 1) ∧
  (exitCode (main parses Decode w) = 0 ↔
   servingReached (main parses Decode w) = true) ∧
  (exitCode (main parses Decode w) = 0 ↔
   ∃ tmpl, result_ (loadTemplates parses (files w)) = Proceed tmpl).
Proof.
  pose proof (loadTemplates_ends (files w)) as H. unfold main, servingReached.
  destruct (result_ (loadTemplates parses (files w))) as [tmpl|code].
  - cbn [exitCode events]. split; [by left|]. split.
    + split; [intros _|done].
      rewrite !List.existsb_app, no_listen_in_log. reflexivity.
    + split; [eauto | done].
  - destruct H as [-> _]. cbn [exitCode events]. split; [by right|]. split.
    + split; [done|]. rewrite List.existsb_app, no_listen_in_log.
      discriminate.
    + split; [done | by intros [? ?]].
Qed.

(** X11. The shutdown sequence: [server.Shutdown] is called first,
    under the deadline of ten seconds; [server.Close] is called
    exactly when [Shutdown] returned an error; the last thing
    [gracefulShutdown] does is to hand the record [server stopped] to
    the logger. *)
Theorem X11_shutdown_sequence w :
  head (gracefulShutdown w) = Some (Shutdown (10 * Second)) ∧
  (Close ∈ gracefulShutdown w ↔ is_Some (shutdownResult w shutdownTimeout)) ∧
  last (gracefulShutdown w) = Some (Logged (Info "server stopped" [])).
Proof.
  split; [done|]. split.
  - unfold gracefulShutdown.
    destruct (shutdownResult w shutdownTimeout) as [e|].
    + split; [by eauto|]. intros _. destruct (closeResult w);
        apply elem_of_cons; right; apply elem_of_cons; right; left.
    + split; [|by intros [? ?]]. intros Hin.
      repeat (apply elem_of_cons in Hin as [Hin|Hin]; [discriminate Hin|]).
      by apply elem_of_nil in Hin.
  - unfold gracefulShutdown.
    destruct (shutdownResult w shutdownTimeout), (closeResult w); done.
Qed.

(** X12. When the first load fails on a file that does not exist and
    [default.html] is a regular file, the bootstrap replaces its text
    by the default text, whatever it held. *)
Theorem X12_heal_overwrites (fs : gmap path FS.node) err data :
  ParseGlob parses fs (templateDir ++ ["*.html"]) = Err err →
  IsNotExist err = true →
  fs !! (templateDir ++ ["default.html"]) = Some (FS.File data) →
  disk (loadTemplates parses fs) !! (templateDir ++ ["default.html"])
    = Some (FS.File defaultContent).
Proof.
  intros Hload Hne Hfile. unfold loadTemplates. rewrite Hload, Hne.
  pose proof (Glob_nonempty_dir _ _ _
                (not_exist_needs_listed_file parses _ _ _ Hload Hne)) as Hdir.
  rewrite (MkdirAll_existing _ _ Hdir).
  unfold FS.WriteFile. rewrite split_last_snoc.
  unfold FS.Stat in Hdir.
  destruct (FS.walk true fs [] templateDir) as [e|[]]; try discriminate Hdir.
  unfold path in *. rewrite Hfile.
  destruct (ParseGlob parses (<[_:=_]> fs) _); apply lookup_insert_eq.
Qed.

End BootstrapFacts.

(** ** Directories: what [MkdirAll] keeps, adds and achieves *)

Section MkdirFacts.
Import Go FS.

Lemma walk_final (follow : bool) (fs : gmap path node) seen rest n :
  walk follow fs seen rest = inr n → at_ fs (seen ++ rest) = Some n.
Proof.
  revert seen. induction rest as [|c rest IH]; intros seen; simpl.
  - rewrite (right_id_L [] (++)).
    destruct (at_ fs seen) as [[| |b]|]; try destruct follow;
      intros H; by simplify_eq.
  - destruct (at_ fs seen) as [[| |b]|]; try discriminate.
    intros H%IH. by rewrite <- (assoc_L (++)) in H.
Qed.

(** Below a directory the walk goes on from there. *)
Lemma walk_snoc_dir (follow : bool) (fs : gmap path node) seen rest name :
  walk true fs seen rest = inr Dir →
  walk follow fs seen (rest ++ [name]) = walk follow fs (seen ++ rest) [name].
Proof.
  revert seen. induction rest as [|c rest IH]; intros seen; simpl.
  - by rewrite (right_id_L [] (++)).
  - destruct (at_ fs seen) as [[| |b]|]; try discriminate.
    intros H%IH. by rewrite H, <- (assoc_L (++)).
Qed.

(** A file system that keeps every node of another resolves every
    path the other resolves, to the same node. *)
Lemma walk_extends (follow : bool) (fs fs' : gmap path node) seen rest n :
  (∀ q m, fs !! q = Some m → fs' !! q = Some m) →
  walk follow fs seen rest = inr n → walk follow fs' seen rest = inr n.
Proof.
  intros Hext. revert seen.
  assert (∀ q m, at_ fs q = Some m → at_ fs' q = Some m) as Hat.
  { intros [|x q] m; [done | apply Hext]. }
  induction rest as [|c rest IH]; intros seen; simpl.
  - destruct (at_ fs seen) as [m|] eqn:Hm; [|discriminate].
    by rewrite (Hat _ _ Hm).
  - destruct (at_ fs seen) as [m|] eqn:Hm; [|discriminate].
    rewrite (Hat _ _ Hm). destruct m; try discriminate. apply IH.
Qed.

Lemma Mkdir_extends (fs : gmap path node) p q m :
  fs !! q = Some m → (Mkdir fs p).1 !! q = Some m.
Proof.
  intros Hq. unfold Mkdir.
  destruct (split_last p) as [[parent name]|]; [|done].
  destruct (walk true fs [] parent) as [e|[]]; try done.
  destruct (fs !! p) eqn:Hp; [done|]. cbn [fst].
  rewrite lookup_insert_ne; [done | congruence].
Qed.

Lemma Mkdir_adds (fs : gmap path node) p q m :
  (Mkdir fs p).1 !! q = Some m → fs !! q = Some m ∨ (q = p ∧ m = Dir).
Proof.
  unfold Mkdir.
  destruct (split_last p) as [[parent name]|]; [|by left].
  destruct (walk true fs [] parent) as [e|[]]; try by left.
  destruct (fs !! p) eqn:Hp; [by left|]. cbn [fst].
  destruct (decide (p = q)) as [->|Hne].
  - rewrite lookup_insert_eq. intros [= <-]. by right.
  - rewrite lookup_insert_ne by done. by left.
Qed.

Lemma MkdirAll_rev_fst (fs : gmap path node) rp :
  (MkdirAll_rev fs rp).1 =
    match Stat fs (reverse rp) with
    | Ok _ => fs
    | Err _ =>
        match rp with
        | [] => fs
        | _ :: parent =>
            let r := match parent with
                     | [] => (fs, None)
                     | _ => MkdirAll_rev fs parent
                     end in
            match r.2 with
            | Some _ => r.1
            | None => (Mkdir r.1 (reverse rp)).1
            end
        end
    end.
Proof.
  rewrite MkdirAll_rev_unfold.
  destruct (Stat fs (reverse rp)) as [[]|]; try done.
  destruct rp as [|x parent]; [done|].
  destruct (match parent with [] => (fs, None) | _ => MkdirAll_rev fs parent end)
    as [fs1 [e|]]; [done|]. cbn [fst snd].
  destruct (Mkdir fs1 (reverse (x :: parent))) as [fs2 [e|]]; [|done].
  by destruct (Lstat fs1 (reverse (x :: parent))) as [[]|].
Qed.

(** [MkdirAll] keeps every node there is. *)
Lemma MkdirAll_extends (fs : gmap path node) p q m :
  fs !! q = Some m → (MkdirAll fs p).1 !! q = Some m.
Proof.
  unfold MkdirAll. generalize (reverse p). intros rp. revert fs.
  induction rp as [|x parent IH]; intros fs Hq; rewrite MkdirAll_rev_fst.
  - by destruct (Stat fs (reverse [])).
  - destruct (Stat fs (reverse (x :: parent))); [done|].
    destruct parent as [|y parent']; cbn [fst snd].
    + by apply Mkdir_extends.
    + specialize (IH fs Hq).
      destruct (MkdirAll_rev fs (y :: parent')) as [fs1 [e|]];
        cbn [fst snd] in *; [done|]. by apply Mkdir_extends.
Qed.

Lemma MkdirAll_rev_adds (fs : gmap path node) rp q m :
  (MkdirAll_rev fs rp).1 !! q = Some m →
  fs !! q = Some m ∨ (m = Dir ∧ q `prefix_of` reverse rp).
Proof.
  revert fs.
  induction rp as [|x parent IH]; intros fs; rewrite MkdirAll_rev_fst.
  - destruct (Stat fs (reverse [])); by left.
  - destruct (Stat fs (reverse (x :: parent))); [by left|].
    assert (∀ fs1, (Mkdir fs1 (reverse (x :: parent))).1 !! q = Some m →
              fs1 !! q = Some m ∨ (m = Dir ∧ q `prefix_of` reverse (x :: parent)))
      as Hlast.
    { intros fs1 [H|[-> ->]]%Mkdir_adds; [by left | by right]. }
    destruct parent as [|y parent']; cbn [fst snd]; [apply Hlast|].
    specialize (IH fs).
    assert (∀ q', q' `prefix_of` reverse (y :: parent') →
                  q' `prefix_of` reverse (x :: y :: parent')) as Hpre.
    { intros q' Hq'. rewrite (reverse_cons _ x).
      by apply prefix_app_r. }
    destruct (MkdirAll_rev fs (y :: parent')) as [fs1 [e|]];
      cbn [fst snd] in *.
    + intros [H|[-> H]]%IH; [by left | right; eauto].
    + intros [H|[-> H]]%Hlast; [|by right].
      apply IH in H as [H|[-> H]]; [by left | right; eauto].
Qed.

(** What [MkdirAll] adds is a directory at the path or at one of its
    ancestors. *)
Lemma MkdirAll_adds (fs : gmap path node) p q m :
  (MkdirAll fs p).1 !! q = Some m →
  fs !! q = Some m ∨ (m = Dir ∧ q `prefix_of` p).
Proof.
  unfold MkdirAll. intros H%MkdirAll_rev_adds.
  by rewrite reverse_involutive in H.
Qed.

Lemma at_snoc (fs : gmap path node) (p : path) name :
  at_ fs (p ++ [name]) = fs !! (p ++ [name]).
Proof. by destruct p. Qed.

Lemma walk_child (follow : bool) (fs : gmap path node) parent name :
  walk true fs [] parent = inr Dir →
  fs !! (parent ++ [name]) = Some Dir →
  walk follow fs [] (parent ++ [name]) = inr Dir.
Proof.
  intros Hp Hc. unfold path in *.
  rewrite (walk_snoc_dir _ _ _ _ _ Hp). simpl.
  apply walk_final in Hp. simpl in Hp. rewrite Hp.
  rewrite at_snoc. unfold path in *. by rewrite Hc.
Qed.

(** The last step of [MkdirAll]: below a directory, at a name that is
    free or a directory already, it leaves a directory and no error. *)
Lemma Mkdir_under_dir (fs : gmap path node) parent name :
  walk true fs [] parent = inr Dir →
  fs !! (parent ++ [name]) = None ∨ fs !! (parent ++ [name]) = Some Dir →
  ∃ fs2,
    match Mkdir fs (parent ++ [name]) with
    | (fs2, None) => (fs2, None)
    | (fs2, Some e) =>
        match Lstat fs (parent ++ [name]) with
        | Ok Dir => (fs2, None)
        | _ => (fs2, Some e)
        end
    end = (fs2, None) ∧
    walk true fs2 [] (parent ++ [name]) = inr Dir.
Proof.
  intros Hp Hc. unfold Mkdir. rewrite split_last_snoc, Hp. unfold path in *.
  destruct Hc as [Hc|Hc]; rewrite Hc.
  - exists (<[parent ++ [name] := Dir]> fs). split; [done|].
    apply walk_child; [|apply lookup_insert_eq].
    apply (walk_extends _ fs); [|done].
    intros q m Hq. rewrite lookup_insert_ne; [done|].
    intros <-. unfold path in *. by rewrite Hc in Hq.
  - exists fs. unfold Lstat. rewrite (walk_child false _ _ _ Hp Hc).
    split; [done | by apply walk_child].
Qed.

Lemma MkdirAll_rev_ok (fs : gmap path node) rp :
  (∀ q, q ≠ [] → q `prefix_of` reverse rp →
        fs !! q = None ∨ fs !! q = Some Dir) →
  (MkdirAll_rev fs rp).2 = None ∧
  Stat (MkdirAll_rev fs rp).1 (reverse rp) = Ok Dir.
Proof.
  assert (∀ fs' : gmap path node, ∀ l,
            walk true fs' [] l = inr Dir → Stat fs' l = Ok Dir) as Hstat.
  { intros fs' l H. unfold Stat. by rewrite H. }
  induction rp as [|x parent IH]; intros Hfree;
    rewrite MkdirAll_rev_unfold.
  - done.
  - destruct (Stat fs (reverse (x :: parent))) as [n|e] eqn:Hs.
    { unfold Stat in Hs.
      destruct (walk true fs [] (reverse (x :: parent))) as [e|n'] eqn:Hw;
        [discriminate|]. injection Hs as ->.
      pose proof (walk_final _ _ _ _ _ Hw) as Hat. simpl in Hat.
      rewrite reverse_cons, at_snoc in Hat.
      destruct (Hfree (reverse parent ++ [x])) as [H|H];
        [by destruct (reverse parent) | by rewrite reverse_cons | |];
        unfold path in *; rewrite H in Hat; simplify_eq.
      split; [done|]. by apply Hstat. }
    assert (∃ fs1,
      match parent with [] => (fs, None) | _ => MkdirAll_rev fs parent end
        = (fs1, None) ∧
      walk true fs1 [] (reverse parent) = inr Dir ∧
      (∀ q m, fs1 !! q = Some m →
         fs !! q = Some m ∨ (m = Dir ∧ q `prefix_of` reverse parent)))
      as (fs1 & -> & Hw1 & Hadd).
    { destruct parent as [|y parent'].
      { exists fs. split; [done|]. split; [done | by left]. }
      destruct IH as [He Hd].
      { intros q Hq Hpre. apply Hfree; [done|].
        rewrite (reverse_cons _ x). by apply prefix_app_r. }
      exists (MkdirAll_rev fs (y :: parent')).1. split; [|split].
      - by destruct (MkdirAll_rev fs (y :: parent')) as [? [?|]].
      - unfold Stat in Hd.
        by destruct (walk true _ [] (reverse (y :: parent'))) as [|[]].
      - intros q m. apply MkdirAll_rev_adds. }
    rewrite reverse_cons.
    destruct (Mkdir_under_dir fs1 (reverse parent) x Hw1) as (fs2 & -> & Hw2).
    + destruct (fs1 !! (reverse parent ++ [x])) as [m|] eqn:Hm; [|by left].
      right. apply Hadd in Hm as [Hm|[-> _]]; [|done].
      destruct (Hfree (reverse parent ++ [x])) as [H|H];
        [by destruct (reverse parent) | by rewrite reverse_cons | |];
        unfold path in *; rewrite H in Hm; by simplify_eq.
    + split; [done | by apply Hstat].
Qed.

(** [MkdirAll] succeeds when nothing but directories is in its way,
    and then the path is a directory. *)
Lemma MkdirAll_ok (fs : gmap path node) p :
  (∀ q, q ≠ [] → q `prefix_of` p →
        fs !! q = None ∨ fs !! q = Some Dir) →
  (MkdirAll fs p).2 = None ∧ Stat (MkdirAll fs p).1 p = Ok Dir.
Proof.
  intros Hfree. unfold MkdirAll.
  destruct (MkdirAll_rev_ok fs (reverse p)) as [He Hd].
  - by rewrite reverse_involutive.
  - by rewrite reverse_involutive in Hd.
Qed.

End MkdirFacts.

(** ** The start script and the server it runs *)

Section ScriptFacts.
Import Go Script.
Variable parses : string → bool.
Variable Decode : string → option HTTP.ProcessRequest.

Lemma mkdir_p_extends (fs : gmap path FS.node) dirs q m :
  fs !! q = Some m → mkdir_p fs dirs !! q = Some m.
Proof.
  unfold mkdir_p. revert fs.
  induction dirs as [|d dirs IH]; intros fs H; [done|].
  simpl. apply IH. by apply MkdirAll_extends.
Qed.

Lemma mkdir_p_adds (fs : gmap path FS.node) dirs q m :
  mkdir_p fs dirs !! q = Some m →
  fs !! q = Some m ∨ (m = FS.Dir ∧ ∃ d, d ∈ dirs ∧ q `prefix_of` d).
Proof.
  unfold mkdir_p. revert fs.
  induction dirs as [|d dirs IH]; intros fs; [by left|].
  simpl. intros [H|(-> & d' & Hd' & Hq)]%IH.
  - apply MkdirAll_adds in H as [H|[-> H]]; [by left|].
    right. split; [done|]. exists d. split; [left | done].
  - right. split; [done|]. exists d'. split; [by right | done].
Qed.

(** X13. The port the script exports and the port the server falls
    back to agree: behind the script [PORT] is always set and not
    empty, and the server listens on the port it would have chosen
    without the script. *)
Theorem X13_script_port (env : gmap string string) (tmpl : Template) :
  Getenv (exports env) "PORT" ≠ "" ∧
  port (initConfig (exports env) tmpl) = port (initConfig env tmpl).
Proof.
  assert (Getenv (exports env) "PORT" =
            if decide (Getenv env "PORT" = "") then "8080"
            else Getenv env "PORT") as Hport.
  { unfold exports, Getenv at 1.
    rewrite lookup_insert_ne by discriminate.
    by rewrite lookup_insert_eq. }
  split.
  - rewrite Hport. by case_decide.
  - cbn [port initConfig]. unfold getEnvOrDefault. rewrite Hport.
    unfold defaultPort. repeat case_decide; done.
Qed.

(** X14. The setup of the script removes nothing and overwrites no
    regular file: every node other than [default.html] is kept, and a
    [default.html] that is a regular file keeps its text and is not
    reported as created. *)
Theorem X14_script_keeps_files (sh : shell) :
  (∀ q m, q ≠ templateDir ++ ["default.html"] →
     tree sh !! q = Some m →
     tree (create_project_structure sh) !! q = Some m) ∧
  (∀ data,
     FS.Stat (tree sh) (templateDir ++ ["default.html"])
       = Ok (FS.File data) →
     FS.ReadFile (tree (create_project_structure sh))
       (templateDir ++ ["default.html"]) = Ok data ∧
     printed (create_project_structure sh) = printed sh).
Proof.
  split.
  - intros q m Hq Hm. unfold create_project_structure.
    pose proof (mkdir_p_extends _ projectDirs _ _ Hm) as Hm1.
    case_match; cbn [tree]; [done|].
    destruct (WriteFile_cases (mkdir_p (tree sh) projectDirs)
                (templateDir ++ ["default.html"]) scriptTemplate)
      as [-> | [e ->]]; cbn [fst]; [|done].
    rewrite lookup_insert_ne; [done | congruence].
  - intros data Hs. unfold create_project_structure.
    assert (FS.walk true (mkdir_p (tree sh) projectDirs) []
              (templateDir ++ ["default.html"]) = inr (FS.File data)) as Hw.
    { apply (walk_extends _ (tree sh));
        [intros q m; apply mkdir_p_extends|].
      unfold FS.Stat in Hs.
      destruct (FS.walk true (tree sh) [] _) as [|[]]; by simplify_eq. }
    unfold isRegular, FS.Stat. rewrite Hw. cbn [tree printed].
    unfold FS.ReadFile. by rewrite Hw.
Qed.

(** The last step of a walk below a directory. *)
Lemma walk_last (follow : bool) (fs : gmap path FS.node) parent name :
  FS.walk true fs [] parent = inr FS.Dir →
  FS.walk follow fs [] (parent ++ [name]) =
    match fs !! (parent ++ [name]) with
    | None => inl ENOENT
    | Some (FS.Dangling c) =>
        if follow then inl ENOENT else inr (FS.Dangling c)
    | Some n => inr n
    end.
Proof.
  intros Hp. rewrite (walk_snoc_dir _ _ _ _ _ Hp). simpl.
  apply walk_final in Hp. simpl in Hp. rewrite Hp.
  by rewrite at_snoc.
Qed.

(** The names of a directory are listed once each. *)
Lemma NoDup_omap_inj {A B} (f : A → option B) (l : list A) :
  (∀ x y z, f x = Some z → f y = Some z → x = y) →
  NoDup l → NoDup (omap f l).
Proof.
  intros Hinj. induction 1 as [|x l Hx Hl IH]; simpl; [constructor|].
  destruct (f x) as [z|] eqn:Hz; [|done].
  constructor; [|done].
  intros (y & Hy & Hfy)%list_elem_of_omap.
  by rewrite (Hinj _ _ _ Hz Hfy) in Hx.
Qed.

Lemma NoDup_Readdirnames (fs : gmap path FS.node) dir :
  NoDup (FS.Readdirnames fs dir).
Proof.
  unfold FS.Readdirnames. rewrite merge_sort_Permutation.
  apply NoDup_omap_inj; [|apply NoDup_fst_map_to_list].
  intros p p' name Hp Hp'.
  apply child_of_spec in Hp, Hp'. congruence.
Qed.

Lemma Readdirnames_only (fs : gmap path FS.node) dir name :
  (∀ n, is_Some (fs !! (dir ++ [n])) ↔ n = name) →
  FS.Readdirnames fs dir = [name].
Proof.
  intros H. pose proof (NoDup_Readdirnames fs dir) as Hnd.
  assert (∀ n, n ∈ FS.Readdirnames fs dir ↔ n = name) as Hin
    by (intros n; by rewrite elem_of_Readdirnames).
  destruct (FS.Readdirnames fs dir) as [|a [|b l]].
  - pose proof (proj2 (Hin name) eq_refl) as Hn. by apply elem_of_nil in Hn.
  - f_equal. apply Hin. left.
  - assert (a = name) as -> by (apply Hin; left).
    assert (b = name) as -> by (apply Hin; right; left).
    apply NoDup_cons in Hnd as [Hnd _]. destruct Hnd. left.
Qed.

Lemma under_internal q d :
  d ∈ projectDirs → q `prefix_of` d → (length q ≤ 2)%nat.
Proof.
  intros Hd Hq%prefix_length. unfold projectDirs in Hd.
  repeat (apply elem_of_cons in Hd as [->|Hd]; [exact Hq|]).
  by apply elem_of_nil in Hd.
Qed.

(** The setup on a tree that has nothing at [internal] yet: the five
    directories and the default template of the script. *)
Lemma setup_on_fresh_tree (fs : gmap path FS.node) env out :
  (∀ q, fs !! ("internal" :: q) = None) →
  tree (create_project_structure
          {| tree := fs; vars := env; printed := out |}) =
    <[templateDir ++ ["default.html"] := FS.File scriptTemplate]>
      (mkdir_p fs projectDirs) ∧
  FS.walk true (mkdir_p fs projectDirs) [] templateDir = inr FS.Dir ∧
  (∀ n, mkdir_p fs projectDirs !! (templateDir ++ [n]) = None).
Proof.
  intros Hnone.
  assert (∀ n, mkdir_p fs projectDirs !! (templateDir ++ [n]) = None)
    as Hfree.
  { intros n.
    destruct (mkdir_p fs projectDirs !! (templateDir ++ [n])) as [m|] eqn:Hm;
      [|done].
    apply mkdir_p_adds in Hm as [Hm|(_ & d & Hd & Hq)].
    - assert (fs !! (templateDir ++ [n]) = None) as H0
        by apply (Hnone ["templates"; n]).
      unfold path in *. by rewrite H0 in Hm.
    - apply (under_internal _ _ Hd) in Hq. simpl in Hq. lia. }
  assert (FS.walk true (mkdir_p fs projectDirs) [] templateDir = inr FS.Dir)
    as Hdir.
  { destruct (MkdirAll_ok fs templateDir) as [_ Hd].
    { intros [|x q] Hq Hpre; [done|]. left.
      apply prefix_cons_inv_1 in Hpre as ->. apply Hnone. }
    apply (walk_extends _ (FS.MkdirAll fs templateDir).1).
    { intros q m. apply (mkdir_p_extends _ (tail projectDirs)). }
    unfold FS.Stat in Hd.
    by destruct (FS.walk true _ [] templateDir) as [|[]]. }
  split; [|by split].
  unfold create_project_structure. cbn [tree].
  assert (FS.walk true (mkdir_p fs projectDirs) []
            (templateDir ++ ["default.html"]) = inl ENOENT) as Hw.
  { rewrite (walk_last _ _ _ _ Hdir). unfold path in *. by rewrite Hfree. }
  unfold isRegular, FS.Stat. rewrite Hw.
  unfold FS.WriteFile. rewrite split_last_snoc, Hdir.
  unfold path in *. by rewrite Hfree.
Qed.

(** X15. The script makes up for the bootstrap: started on a tree that
    has nothing at [internal], it creates the directories and
    [default.html], and the server it runs loads exactly that template
    and reaches [ListenAndServe] (the text of the script's template
    has to parse). *)
Theorem X15_script_then_server w :
  (∀ q, files w !! ("internal" :: q) = None) →
  parses scriptTemplate = true →
  exitCode (script parses Decode w).2 = 0 ∧
  servingReached (script parses Decode w).2 = true ∧
  (script parses Decode w).1 =
    [echo (GREEN +:+ "Setting up project structure..." +:+ NC);
     echo (GREEN +:+ "Created default template" +:+ NC);
     echo (GREEN +:+ "Starting ERA API server without CGO..." +:+ NC)] ∧
  ∃ fs', filesAfter (script parses Decode w).2 = fs' ∧
    loadTemplates parses fs' =
      {| disk := fs'; logged := [];
         result_ := Proceed [("default.html", scriptTemplate)] |}.
Proof.
  intros Hnone Hparses.
  destruct (setup_on_fresh_tree (files w) (environ w)
              [echo (GREEN +:+ "Setting up project structure..." +:+ NC)]
              Hnone) as (Htree & Hdir & Hfree).
  set (fs1 := mkdir_p (files w) projectDirs) in *.
  set (fs2 := <[templateDir ++ ["default.html"] := FS.File scriptTemplate]>
                fs1) in *.
  assert (FS.walk true fs2 [] templateDir = inr FS.Dir) as Hdir2.
  { apply (walk_extends _ fs1); [|done]. intros q m Hq.
    unfold fs2. rewrite lookup_insert_ne; [done|].
    intros <-. unfold path in *. by rewrite Hfree in Hq. }
  assert (FS.Readdirnames fs2 templateDir = ["default.html"]) as Hnames.
  { apply Readdirnames_only. intros n. unfold fs2. split.
    - intros Hn. destruct (decide (n = "default.html")) as [|Hne]; [done|].
      rewrite lookup_insert_ne in Hn
        by (intros [= ?]%List.app_inv_head; congruence).
      unfold path in *. rewrite Hfree in Hn. by destruct Hn.
    - intros ->. rewrite lookup_insert_eq. eauto. }
  assert (FS.ReadFile fs2 (templateDir ++ ["default.html"])
            = Ok scriptTemplate) as Hread.
  { unfold FS.ReadFile. rewrite (walk_last _ _ _ _ Hdir2).
    unfold fs2. by rewrite lookup_insert_eq. }
  assert (loadTemplates parses fs2 =
            {| disk := fs2; logged := [];
               result_ := Proceed [("default.html", scriptTemplate)] |})
    as Hload.
  { unfold loadTemplates, ParseGlob, FS.Glob.
    rewrite split_last_snoc. unfold FS.Stat. rewrite Hdir2, Hnames.
    assert (filter (λ name, FS.Match "*.html" name) ["default.html"]
              = ["default.html"]) as -> by reflexivity.
    cbn [fmap list_fmap parseFiles]. rewrite Hread, Hparses.
    by rewrite Base_snoc. }
  unfold script. cbn [fst snd]. unfold main. cbn [files].
  rewrite Htree. fold fs1. fold fs2. rewrite Hload. cbn [result_ logged disk].
  split; [reflexivity|]. split; [reflexivity|]. split.
  - unfold create_project_structure. cbn [tree printed].
    fold fs1. unfold isRegular, FS.Stat.
    rewrite (walk_last _ _ _ _ Hdir). unfold path in *. by rewrite Hfree.
  - exists fs2. by split.
Qed.

(** The only text [main] prints itself is the banner. *)
Lemma main_prints_banner w s :
  Stdout s ∈ events (main parses Decode w) → s = startupBanner.
Proof.
  unfold main.
  assert (∀ l : list Record_, Stdout s ∉ (Logged <$> l)) as Hlog.
  { intros l (rec & H & _)%list_elem_of_fmap. discriminate H. }
  assert (Stdout s ∉ gracefulShutdown w) as Hdown.
  { unfold gracefulShutdown.
    destruct (shutdownResult w shutdownTimeout), (closeResult w);
      intros Hin;
      repeat (apply elem_of_cons in Hin as [Hin|Hin]; [discriminate Hin|]);
      by apply elem_of_nil in Hin. }
  destruct (result_ (loadTemplates parses (files w))); cbn [events];
    intros Hin.
  - apply elem_of_cons in Hin as [[= ->]|Hin]; [done|].
    apply elem_of_cons in Hin as [Hin|Hin]; [discriminate Hin|].
    apply elem_of_app in Hin as [Hin|Hin]; [by destruct (Hlog _ Hin)|].
    unfold startServer in Hin.
    apply elem_of_cons in Hin as [Hin|Hin]; [discriminate Hin|].
    apply elem_of_cons in Hin as [Hin|Hin]; [discriminate Hin|].
    apply elem_of_cons in Hin as [Hin|Hin];
      [by destruct (wake w) | by destruct (Hdown Hin)].
  - apply elem_of_cons in Hin as [[= ->]|Hin]; [done|].
    apply elem_of_cons in Hin as [Hin|Hin]; [discriminate Hin|].
    by destruct (Hlog _ Hin).
Qed.

(** X16. [printStartupInstructions] is never called: no run of [main]
    prints any of its lines. *)
Theorem X16_instructions_never_printed w e :
  e ∈ printStartupInstructions → e ∉ events (main parses Decode w).
Proof.
  intros He Hin. unfold printStartupInstructions, Println in He.
  repeat (apply elem_of_cons in He as [->|He];
          [apply main_prints_banner in Hin; vm_compute in Hin;
           discriminate Hin|]).
  by apply elem_of_nil in He.
Qed.

End ScriptFacts.

(** ** The further properties on sample inputs *)

Section MoreInstances.
Import Go HTTP Script Samples.

(** X4 on a preflight call, around two different handlers. *)
Lemma X4_preflight_short_circuit_witness :
  corsMiddleware (handleProcess Decode)
    (request "OPTIONS" "/api/v1/process" kernBody) idle =
  corsMiddleware healthCheck
    (request "OPTIONS" "/api/v1/process" kernBody) idle ∧
  reply (request "OPTIONS" "/api/v1/process" kernBody)
    (corsMiddleware (handleProcess Decode)
       (request "OPTIONS" "/api/v1/process" kernBody) (begin idle)) =
    {| StatusCode := 200; Headers := corsHeaders; Content := [] |}.
Proof.
  destruct (X4_preflight_short_circuit (handleProcess Decode) healthCheck
              (request "OPTIONS" "/api/v1/process" kernBody) idle eq_refl)
    as (H1 & H2 & _).
  by split.
Defined.

(** X5 on a POST whose body is no JSON text. *)
Lemma X5_cors_adds_headers_only_witness :
  StatusCode
    (reply (request "POST" "/api/v1/process" "not json")
       (corsMiddleware (handleProcess Decode)
          (request "POST" "/api/v1/process" "not json") (begin idle)))
    = 400 ∧
  Headers
    (reply (request "POST" "/api/v1/process" "not json")
       (corsMiddleware (handleProcess Decode)
          (request "POST" "/api/v1/process" "not json") (begin idle)))
    = Headers
        (reply (request "POST" "/api/v1/process" "not json")
           (handleProcess Decode
              (request "POST" "/api/v1/process" "not json") (begin idle)))
      ∪ corsHeaders.
Proof.
  assert (Method (request "POST" "/api/v1/process" "not json") ≠ "OPTIONS")
    as Hm by discriminate.
  destruct (X5_cors_adds_headers_only Decode
              (request "POST" "/api/v1/process" "not json") idle Hm)
    as (Hs & _ & Hh).
  split; [rewrite Hs; reflexivity | exact Hh].
Defined.


(** X7 on a directory whose own [default.html] stands beside a dead
    link: the call of [MkdirAll] changes nothing, and the template
    directory is a directory afterwards as before. *)
Lemma X7_bootstrap_creates_no_directory_witness :
  FS.MkdirAll stale templateDir = (stale, None) ∧
  Bootstrap.disk (loadTemplates (λ _, true) stale) !! templateDir
    = Some FS.Dir.
Proof.
  assert (ParseGlob (λ _, true) stale (templateDir ++ ["*.html"])
            = Err (PathError "open" (templateDir ++ ["old.html"]) ENOENT))
    as Hload by (vm_compute; reflexivity).
  destruct (X7_bootstrap_creates_no_directory (λ _, true) stale)
    as (Hdirs & Hheal & _).
  destruct (Hheal _ Hload eq_refl) as [_ Hmk].
  split; [exact Hmk|]. apply Hdirs. vm_compute. reflexivity.
Defined.

(** X8 on the directory as the start script leaves it. *)
Lemma X8_templates_loaded_witness :
  result_ (loadTemplates (λ _, true) ready)
    = Proceed [("default.html", defaultContent)] ∧
  FS.Match "*.html" "default.html" = true.
Proof.
  assert (result_ (loadTemplates (λ _, true) ready)
            = Proceed [("default.html", defaultContent)]) as H
    by (vm_compute; reflexivity).
  split; [exact H|].
  destruct (X8_templates_loaded (λ _, true) ready _ H) as [_ Hall].
  destruct (Hall "default.html" defaultContent) as (Hm & _); [left|].
  exact Hm.
Defined.

(** X12 on a directory whose own [default.html] stands beside a dead
    link: the text is replaced, and the run exits all the same. *)
Lemma X12_heal_overwrites_witness :
  stale !! (templateDir ++ ["default.html"]) = Some (FS.File "<p>ours</p>") ∧
  Bootstrap.disk (loadTemplates (λ _, true) stale)
    !! (templateDir ++ ["default.html"]) = Some (FS.File defaultContent) ∧
  result_ (loadTemplates (λ _, true) stale) = Exit 1.
Proof.
  assert (ParseGlob (λ _, true) stale (templateDir ++ ["*.html"])
            = Err (PathError "open" (templateDir ++ ["old.html"]) ENOENT))
    as Hload by (vm_compute; reflexivity).
  assert (stale !! (templateDir ++ ["default.html"])
            = Some (FS.File "<p>ours</p>")) as Hfile
    by (vm_compute; reflexivity).
  split; [exact Hfile|]. split.
  - exact (X12_heal_overwrites (λ _, true) stale _ _ Hload eq_refl Hfile).
  - vm_compute. reflexivity.
Defined.

(** X15 on the empty file system. *)
Lemma X15_script_then_server_witness :
  exitCode (script (λ _, true) Decode (world bare ∅)).2 = 0 ∧
  servingReached (script (λ _, true) Decode (world bare ∅)).2 = true.
Proof.
  destruct (X15_script_then_server (λ _, true) Decode (world bare ∅))
    as (He & Hs & _).
  - intros q. apply lookup_empty.
  - reflexivity.
  - by split.
Defined.

(** X16 on one line of the instructions and a run that serves. *)
Lemma X16_instructions_never_printed_witness :
  Println "- PORT: Server port (default: 8080)"
    ∉ events (main (λ _, true) Decode (world ready ∅)).
Proof.
  apply X16_instructions_never_printed.
  unfold printStartupInstructions. do 8 right. left.
Defined.

End MoreInstances.
